(** * Packaide: the Python driver [packaide.py] as a shallow embedding

    The development follows [python/packaide/packaide.py]:

    - Python floats are IEEE binary64 numbers, here Rocq's primitive floats;
    - Python exceptions are an error monad [result];
    - the libraries the module imports ([svgelements], [shapely]) and the
      native extension [_packaide] are interfaces (type classes): the
      functions of [packaide.py] are written once, over any implementation;
    - the module-level [persistent_state] and the user-owned [State] objects
      live in a store, because [pack] mutates them through references.

    The solution validator of [test/test_packing.py] ([validSolution] and
    [make_polygon_with_holes]) is embedded the same way. *)

From Stdlib Require Import PrimFloat SpecFloat FloatOps ZArith Lia.
From stdpp Require Import base option list gmap strings numbers functions.

Open Scope Z_scope.

(** ** Python exceptions and results *)

Inductive exn : Type :=
  | AssertionError
  | KeyError
  | IndexError
  | AttributeError
  | ValueError
  | OverflowError
  | ZeroDivisionError.

Inductive result (A : Type) : Type :=
  | Ok (a : A)
  | Raise (e : exn).
Arguments Ok {A} a.
Arguments Raise {A} e.

#[global] Instance result_ret : MRet result := fun A a => Ok a.
#[global] Instance result_bind : MBind result := fun A B f m =>
  match m with
  | Ok a => f a
  | Raise e => Raise e
  end.
#[global] Instance result_fmap : FMap result := fun A B f m =>
  match m with
  | Ok a => Ok (f a)
  | Raise e => Raise e
  end.

(** [assert(c)] *)
Definition py_assert (c : bool) : result unit :=
  if c then Ok tt else Raise AssertionError.

(** [l[i]] for a Python list and a Python int: a negative index counts from
    the end, anything out of range raises [IndexError]. *)
Definition py_index {A} (l : list A) (i : Z) : result A :=
  let j := if i <? 0 then Z.of_nat (length l) + i else i in
  if j <? 0 then Raise IndexError
  else match l !! Z.to_nat j with
       | Some a => Ok a
       | None => Raise IndexError
       end.

(** [d[k]] for a dict *)
Definition py_getitem {V} (d : gmap string V) (k : string) : result V :=
  match d !! k with
  | Some v => Ok v
  | None => Raise KeyError
  end.

(** [k in d] *)
Definition py_in {V} (k : string) (d : gmap string V) : bool :=
  match d !! k with
  | Some _ => true
  | None => false
  end.

(** [[f(a) for a in l]] where [f] may raise: the first exception wins. *)
Fixpoint for_each {A B} (f : A → result B) (l : list A) : result (list B) :=
  match l with
  | [] => Ok []
  | a :: l' => b ← f a; bs ← for_each f l'; Ok (b :: bs)
  end.

(** [range(n)] for a Python int [n] *)
Definition py_range (n : Z) : list Z := Z.of_nat <$> seq 0 (Z.to_nat n).

(** ** Python numbers *)

(** [math.ceil(x)]: the least integer not below [x]; infinities and NaN raise. *)
Definition py_ceil (f : float) : result Z :=
  match Prim2SF f with
  | S754_zero _ => Ok 0
  | S754_infinity _ => Raise OverflowError
  | S754_nan => Raise ValueError
  | S754_finite s m e =>
      let v := if s then Z.neg m else Z.pos m in
      Ok (if 0 <=? e then v * 2 ^ e else - ((- v) `div` 2 ^ (- e)))
  end.

(** [float(n)] for a Python int: the nearest binary64 number. *)
Definition py_float (n : Z) : float :=
  SF2Prim (binary_normalize prec emax n 0 false).

(** [a / b] on floats: a zero divisor raises. *)
Definition py_div (a b : float) : result float :=
  if (b =? 0)%float then Raise ZeroDivisionError else Ok (a / b)%float.

(** ** The libraries [packaide.py] imports *)

(** [svgelements]: paths and their sampling.  A point of [svgelements] is a
    pair of floats (the module unpacks it as [x, y]). *)
Class SvgElements : Type := {
  Path : Type;
  (** [len(path)], the number of segments *)
  path_len : Path → nat;
  (** [svgelements.Path(path.subpath(i))] *)
  path_subpath : Path → nat → Path;
  (** [list(path.as_subpaths())] *)
  path_as_subpaths : Path → list Path;
  (** [path.point(t)] *)
  path_point : Path → float → float * float;
  (** [path.length()] *)
  path_length : Path → float;
  (** [p.distance_to(q)] *)
  distance_to : float * float → float * float → float;
}.

(** [shapely]: polygons, offsetting and simplification. *)
Class Shapely : Type := {
  Geometry : Type;
  (** [shapely.geometry.Polygon(points)] *)
  shapely_Polygon : list (float * float) → Geometry;
  (** [g.buffer(distance, cap_style, join_style, mitre_limit)] *)
  buffer : Geometry → float → Z → Z → float → Geometry;
  (** [g.simplify(tolerance)] *)
  simplify : Geometry → float → Geometry;
  (** [g.is_empty] *)
  is_empty : Geometry → bool;
  (** [g.geoms] when [isinstance(g, MultiPolygon)] *)
  multi_geoms : Geometry → option (list Geometry);
  (** [g.exterior.coords.xy]; a geometry without an exterior raises *)
  exterior_xy : Geometry → result (list float * list float);
}.

(** The data classes of the native extension [_packaide], as [packaide.py]
    builds and reads them. *)
Record Point : Type := mkPoint { pt_x : float; pt_y : float }.
Record Polygon : Type := mkPolygon { points : list Point }.
Record PolygonWithHoles : Type :=
  mkPolygonWithHoles { boundary : Polygon; holes : list Polygon }.
Record Transform : Type := mkTransform { translate : Point; rotate : float }.
Record Placement : Type := mkPlacement { polygon_id : Z; transform : Transform }.

(** [Polygon()], [polygon.addPoint(p)], [PolygonWithHoles(boundary)],
    [polygon.addHole(h)] *)
Definition Polygon_new : Polygon := mkPolygon [].
Definition addPoint (poly : Polygon) (p : Point) : Polygon :=
  mkPolygon (points poly ++ [p]).
Definition PolygonWithHoles_new (b : Polygon) : PolygonWithHoles :=
  mkPolygonWithHoles b [].
Definition addHole (poly : PolygonWithHoles) (h : Polygon) : PolygonWithHoles :=
  mkPolygonWithHoles (boundary poly) (holes poly ++ [h]).

(** The functions and opaque classes of [_packaide]: the NFP cache [State],
    the [Sheet], and the two entry points the module calls.  Both entry
    points may update the [State] they are handed. *)
Class Native : Type := {
  State : Type;
  (** [State()] *)
  State_new : State;
  Sheet : Type;
  (** [Sheet()] *)
  Sheet_new : Sheet;
  (** [sheet.height, sheet.width = h, w] *)
  Sheet_set_size : Sheet → float → float → Sheet;
  sheet_add_holes : Sheet → list Polygon → State → Sheet * State;
  pack_decreasing :
    list Sheet → list PolygonWithHoles → State → bool → Z →
    list (list Placement) * State;
}.

(** ** Documents *)

Section Documents.
Context `{svgelements : !SvgElements}.

(** What [isinstance] tells about an element of [svg_object.elements()]:
    a [Path] (which is its own path), another [Shape] (with the reified path
    [svgelements.Path(element)]), or anything else. *)
Inductive element_class : Type :=
  | SvgPath (p : Path)
  | SvgShape (as_path : Path)
  | SvgOther.

Record Element : Type := mkElement {
  el_class : element_class;
  (** [element.values] *)
  el_values : gmap string string;
  (** [element.d()] *)
  el_d : string;
}.

(** A parsed SVG document: the numbers of the root's [viewBox] attribute and
    the elements [svgelements] yields for it. *)
Record Document : Type := mkDocument {
  viewBox : list float;
  doc_elements : list Element;
}.

End Documents.

(** ** SVG parsing and polygon preprocessing *)

(** [for a in l: s = f(s, a)] where the body may raise *)
Fixpoint for_fold {A S} (f : S → A → result S) (l : list A) (s : S) : result S :=
  match l with
  | [] => Ok s
  | a :: l' => s' ← f s a; for_fold f l' s'
  end.

Section Ingest.
Context `{svgelements : !SvgElements, shapely : !Shapely}.

(** [to_shapely_polygon] *)
Definition to_shapely_polygon (pts : list (float * float)) : Geometry :=
  shapely_Polygon pts.

(** [discretize_path]: at least three points, at parameters [i / n_points]. *)
Definition discretize_path (path : Path) (spacing : float) : result Geometry :=
  let length := path_length path in
  q ← py_div length spacing;
  c ← py_ceil q;
  let n_points := Z.max 3 c in
  let pts :=
    (λ i, path_point path (py_float i * (py_float 1 / py_float n_points))%float)
      <$> py_range n_points in
  Ok (to_shapely_polygon pts).

(** [get_boundary]: the first subpath. *)
Definition get_boundary (path : Path) : Path := path_subpath path 0.

(** [is_closed]: the ends of the boundary are less than [tolerance] apart. *)
Definition is_closed (path : Path) (tolerance : float) : bool :=
  let path := get_boundary path in
  (distance_to (path_point path 0) (path_point path 1) <? tolerance)%float.

(** [dilate] and [erode]: square caps, mitre joins, mitre limit 5. *)
Definition dilate (poly : Geometry) (offset : float) : Geometry :=
  buffer poly offset 2 2 5%float.
Definition erode (poly : Geometry) (offset : float) : Geometry :=
  buffer poly (- offset)%float 2 2 5%float.

(** [get_sheet_dimensions]: the view box must unpack into four numbers;
    returns [(height, width)]. *)
Definition get_sheet_dimensions (doc : Document) : result (float * float) :=
  match viewBox doc with
  | [_; _; width; height] => Ok (height, width)
  | _ => Raise ValueError
  end.

(** The test of the first loop of [extract_shapely_polygons]:
    ['hidden' in element.values and element.values['visibility'] == 'hidden'] *)
Definition is_hidden (element : Element) : result bool :=
  if py_in "hidden" (el_values element) then
    v ← py_getitem (el_values element) "visibility";
    Ok (bool_decide (v = "hidden"%string))
  else Ok false.

(** The body of the first loop: what one element appends to [elements] and
    [paths], if anything. *)
Definition gather (tolerance : float) (element : Element)
  : result (option (Element * Path)) :=
  h ← is_hidden element;
  if (h : bool) then Ok None
  else match el_class element with
       | SvgPath p =>
           if negb (path_len p =? 0)%nat && is_closed p tolerance
           then Ok (Some (element, p)) else Ok None
       | SvgShape e =>
           if negb (path_len e =? 0)%nat && is_closed e tolerance
           then Ok (Some (element, e)) else Ok None
       | SvgOther => Ok None
       end.

(** The body of the second loop: the boundary and the holes of one path. *)
Definition outline (tolerance : float) (path : Path)
  : result (Geometry * list Geometry) :=
  d ← discretize_path (path_subpath path 0) tolerance;
  let boundary := simplify (dilate d (1.5 * tolerance)%float) tolerance in
  let hole_paths := tail (path_as_subpaths path) in
  holes ← for_each
    (λ p, d ← discretize_path p tolerance;
          Ok (simplify (erode d (1.5 * tolerance)%float) tolerance))
    (List.filter (λ p, is_closed p tolerance) hole_paths);
  Ok (boundary, holes).

(** [extract_shapely_polygons] *)
Definition extract_shapely_polygons (svg_document : Document) (tolerance : float)
  : result (list Element * list (Geometry * list Geometry)) :=
  get_sheet_dimensions svg_document;;
  gathered ← for_each (gather tolerance) (doc_elements svg_document);
  let elements := fst <$> omap id gathered in
  let paths := snd <$> omap id gathered in
  shapely_polygons ← for_each (outline tolerance) paths;
  py_assert (length elements =? length shapely_polygons)%nat;;
  Ok (elements, shapely_polygons).

(** The inner loops of [extract_polygons]:
    [for i in range(len(x) - 1): poly.addPoint(Point(x[i], y[i]))] *)
Definition add_ring (xy : list float * list float) (poly : Polygon) : result Polygon :=
  let '(xs, ys) := xy in
  for_fold
    (λ poly i, xi ← py_index xs i; yi ← py_index ys i;
               Ok (addPoint poly (mkPoint xi yi)))
    (py_range (Z.of_nat (length xs) - 1)) poly.

(** One hole of the hole loop of [extract_polygons]. *)
Definition add_hole (polygon : PolygonWithHoles) (hole : Geometry)
  : result PolygonWithHoles :=
  if negb (is_empty hole) then
    match multi_geoms hole with
    | Some geoms =>
        for_fold
          (λ polygon minihole,
             xy ← exterior_xy minihole;
             polygon_to_pack_hole ← add_ring xy Polygon_new;
             Ok (addHole polygon polygon_to_pack_hole))
          geoms polygon
    | None =>
        xy ← exterior_xy hole;
        polygon_to_pack_hole ← add_ring xy Polygon_new;
        Ok (addHole polygon polygon_to_pack_hole)
    end
  else Ok polygon.

(** The body of the main loop of [extract_polygons]. *)
Definition to_pack_polygon (offset : float) (ph : Geometry * list Geometry)
  : result PolygonWithHoles :=
  let '(polygon, holes) := ph in
  let polygon := dilate polygon offset in
  xy ← exterior_xy polygon;
  boundary ← add_ring xy Polygon_new;
  for_fold add_hole holes (PolygonWithHoles_new boundary).

(** [extract_polygons] *)
Definition extract_polygons (svg_file : Document) (tolerance offset : float)
  : result (list Element * list PolygonWithHoles) :=
  '(elements, shapely_polygons) ← extract_shapely_polygons svg_file tolerance;
  py_assert (length elements =? length shapely_polygons)%nat;;
  polygons ← for_each (to_pack_polygon offset) shapely_polygons;
  Ok (elements, polygons).

End Ingest.

(** ** The Packaide interface *)

(** The presentation and identification attributes kept when a shape is
    flattened. *)
Definition SVG_RETAIN_ATTRS : list string := [
  "alignment-baseline"; "baseline-shift"; "clip"; "clip-path"; "clip-rule";
  "color"; "color-interpolation"; "color-interpolation-filters";
  "color-profile"; "color-rendering"; "direction"; "display";
  "dominant-baseline"; "enable-background"; "fill"; "fill-opacity";
  "fill-rule"; "filter"; "flood-color"; "flood-opacity"; "lighting-color";
  "marker-end"; "marker-mid"; "marker-start"; "mask"; "opacity"; "overflow";
  "shape-rendering"; "stop-color"; "stop-opacity"; "stroke";
  "stroke-dasharray"; "stroke-dashoffset"; "stroke-linecap";
  "stroke-linejoin"; "stroke-miterlimit"; "stroke-opacity"; "stroke-width";
  "vector-effect"; "visibility"; "class"; "id"; "name"
]%string.

(** The numbers printed into
    ['translate(%.3f,%.3f) rotate(%.3f,%.3f,%.3f)' % (tx, ty, r, px, py)] *)
Record SvgTransform : Type := mkSvgTransform {
  tr_tx : float; tr_ty : float; tr_r : float; tr_px : float; tr_py : float;
}.

(** A [<path>] of an output document: its attributes other than [transform],
    and its transform. *)
Record PlacedShape : Type := mkPlacedShape {
  shape_attrs : gmap string string;
  shape_transform : SvgTransform;
}.

(** An output document: the root of the sheet it was made from, emptied, with
    the placed shapes appended. *)
Record OutputDoc : Type := mkOutputDoc {
  out_viewBox : list float;
  out_shapes : list PlacedShape;
}.

(** The module's memory: the module-level [persistent_state] and the [State]
    objects the caller owns, by reference. *)
Record Store `{native : !Native} : Type := mkStore {
  persistent_state : State;
  user_states : nat → State;
}.

(** Which [State] object a call of [pack] works on. *)
Inductive state_ref : Type :=
  | Custom (l : nat)
  | Persistent
  | Fresh.

Section Pack.
Context `{svgelements : !SvgElements, shapely : !Shapely, native : !Native}.

(** [flatten_shape] *)
Definition flatten_shape (element : Element) : gmap string string :=
  foldl
    (λ shape attr,
       match el_values element !! attr with
       | Some v => <[attr := v]> shape
       | None => shape
       end)
    {["d"%string := el_d element]} SVG_RETAIN_ATTRS.

(** [state = custom_state if persist and custom_state is not None
            else persistent_state if persist else State()] *)
Definition select_state (persist : bool) (custom_state : option nat) : state_ref :=
  match persist, custom_state with
  | true, Some l => Custom l
  | _, _ => if persist then Persistent else Fresh
  end.

Definition read_state (store : Store) (r : state_ref) : State :=
  match r with
  | Custom l => user_states store l
  | Persistent => persistent_state store
  | Fresh => State_new
  end.

(** The object is updated in place; a fresh [State()] is dropped on return. *)
Definition write_state (store : Store) (r : state_ref) (s : State) : Store :=
  match r with
  | Custom l =>
      {| persistent_state := persistent_state store;
         user_states := <[l := s]> (user_states store) |}
  | Persistent =>
      {| persistent_state := s; user_states := user_states store |}
  | Fresh => store
  end.

(** The body of the loop over [sheet_svgs]. *)
Definition build_sheet (tolerance offset : float) (svg_string : Document)
    (state : State) : result Sheet * State :=
  let sheet := Sheet_new in
  match extract_polygons svg_string tolerance offset with
  | Raise e => (Raise e, state)
  | Ok (_, holes) =>
      match get_sheet_dimensions svg_string with
      | Raise e => (Raise e, state)
      | Ok (h, w) =>
          let sheet := Sheet_set_size sheet h w in
          let holes := boundary <$> holes in
          let '(sheet, state) := sheet_add_holes sheet holes state in
          (Ok sheet, state)
      end
  end.

Fixpoint build_sheets (tolerance offset : float) (sheet_svgs : list Document)
    (state : State) : result (list Sheet) * State :=
  match sheet_svgs with
  | [] => (Ok [], state)
  | svg_string :: rest =>
      match build_sheet tolerance offset svg_string state with
      | (Raise e, state) => (Raise e, state)
      | (Ok sheet, state) =>
          match build_sheets tolerance offset rest state with
          | (Raise e, state) => (Raise e, state)
          | (Ok sheets, state) => (Ok (sheet :: sheets), state)
          end
      end
  end.

(** The body of the loop over the placements of one sheet. *)
Definition place_shape (elements : list Element) (polygons : list PolygonWithHoles)
    (acc : list PlacedShape * list Z) (placement : Placement)
  : result (list PlacedShape * list Z) :=
  let '(shapes, successfully_placed) := acc in
  let successfully_placed := successfully_placed ++ [polygon_id placement] in
  polygon ← py_index polygons (polygon_id placement);
  p0 ← py_index (points (boundary polygon)) 0;
  let px := pt_x p0 in
  let py := pt_y p0 in
  let tx := (pt_x (translate (transform placement)) - px)%float in
  let ty := (pt_y (translate (transform placement)) - py)%float in
  let r := rotate (transform placement) in
  element ← py_index elements (polygon_id placement);
  let shape := mkPlacedShape (flatten_shape element) (mkSvgTransform tx ty r px py) in
  Ok (shapes ++ [shape], successfully_placed).

(** The body of the loop over [range(len(packing_output))]. *)
Definition emit_sheet (sheet_svgs : list Document) (elements : list Element)
    (polygons : list PolygonWithHoles)
    (acc : list (Z * OutputDoc) * list Z) (ip : Z * list Placement)
  : result (list (Z * OutputDoc) * list Z) :=
  let '(outputs, successfully_placed) := acc in
  let '(i, placements) := ip in
  doc ← py_index sheet_svgs i;
  '(shapes, successfully_placed) ←
    for_fold (place_shape elements polygons) placements ([], successfully_placed);
  Ok (outputs ++ [(i, mkOutputDoc (viewBox doc) shapes)], successfully_placed).

Definition emit (sheet_svgs : list Document) (elements : list Element)
    (polygons : list PolygonWithHoles) (packing_output : list (list Placement))
  : result (list (Z * OutputDoc) * list Z) :=
  for_fold (emit_sheet sheet_svgs elements polygons)
    (zip (py_range (Z.of_nat (length packing_output))) packing_output) ([], []).

(** What [pack] does with the output of the packing algorithm: the output
    documents, the sanity checks, the counts. *)
Definition finish (sheet_svgs : list Document) (elements : list Element)
    (polygons : list PolygonWithHoles) (partial_solution : bool)
    (packing_output : list (list Placement))
  : result (list (Z * OutputDoc) * Z * Z) :=
  '(outputs, successfully_placed) ← emit sheet_svgs elements polygons packing_output;
  let placed := Z.of_nat (length successfully_placed) in
  let n := Z.of_nat (length polygons) in
  py_assert (placed =? Z.of_nat (size (list_to_set successfully_placed : gset Z)));;
  py_assert (placed <=? n);;
  (if negb partial_solution
   then py_assert ((placed =? 0) || (placed =? n))
   else Ok tt);;
  Ok (outputs, placed, n - placed).

(** [pack], on the [State] it selected. *)
Definition pack_on (sheet_svgs : list Document) (shapes : Document)
    (offset tolerance : float) (partial_solution : bool) (rotations : Z)
    (state : State) : result (list (Z * OutputDoc) * Z * Z) * State :=
  match extract_polygons shapes tolerance offset with
  | Raise e => (Raise e, state)
  | Ok (elements, polygons) =>
      match py_assert (length elements =? length polygons)%nat with
      | Raise e => (Raise e, state)
      | Ok _ =>
          match build_sheets tolerance offset sheet_svgs state with
          | (Raise e, state) => (Raise e, state)
          | (Ok sheets, state) =>
              let '(packing_output, state) :=
                pack_decreasing sheets polygons state partial_solution rotations in
              (finish sheet_svgs elements polygons partial_solution packing_output,
               state)
          end
      end
  end.

(** [pack]: returns the solution, the number of placed parts and the number
    of parts that could not be placed; the selected [State] object keeps what
    the native code did to it, also when the call raises. *)
Definition pack (sheet_svgs : list Document) (shapes : Document)
    (offset tolerance : float) (partial_solution : bool) (rotations : Z)
    (persist : bool) (custom_state : option nat) (store : Store)
  : result (list (Z * OutputDoc) * Z * Z) * Store :=
  let r := select_state persist custom_state in
  let '(res, state) :=
    pack_on sheet_svgs shapes offset tolerance partial_solution rotations
      (read_state store r) in
  (res, write_state store r state).

(** [blank_sheet], as the document read from the string it returns: the
    view box [0 0 width height] and no shape.  The formatting of the string
    and its parsing are not part of the embedding. *)
Definition blank_sheet (width height : float) : Document :=
  mkDocument [0; 0; width; height]%float [].

End Pack.

(** ** The solution validator of the tests

    [test/test_packing.py] judges what [pack] returns with [validSolution],
    which reads the documents back with [extract_shapely_polygons] and asks
    [shapely] about containment and intersection. *)

(** [range(lo, hi)] for Python ints *)
Definition py_range2 (lo hi : Z) : list Z :=
  (λ k, lo + Z.of_nat k) <$> seq 0 (Z.to_nat (hi - lo)).

(** [for a in l: if not f(a): return False], then [True]: the first test
    that fails or raises ends the loop. *)
Fixpoint py_all {A} (f : A → result bool) (l : list A) : result bool :=
  match l with
  | [] => Ok true
  | a :: l' => b ← f a; if (b : bool) then py_all f l' else Ok false
  end.

(** What the validator uses of [shapely] besides the operations of
    [packaide.py]. *)
Class ShapelyPredicates `{shapely : !Shapely} : Type := {
  (** [g.exterior.coords]; a geometry without an exterior raises *)
  exterior_coords : Geometry → result (list (float * float));
  (** [shapely.geometry.Polygon(shell, holes = holes)] *)
  shapely_Polygon_holes :
    list (float * float) → list (list (float * float)) → Geometry;
  (** [a.contains(b)] *)
  contains : Geometry → Geometry → bool;
  (** [a.intersects(b)] *)
  intersects : Geometry → Geometry → bool;
}.

Section Validator.
Context `{svgelements : !SvgElements, shapely : !Shapely,
          predicates : !ShapelyPredicates}.

(** [make_polygon_with_holes]: empty holes are ignored, the members of a
    [MultiPolygon] hole are holes of their own. *)
Definition make_polygon_with_holes (boundary : Geometry) (holes : list Geometry)
  : result Geometry :=
  let all_holes :=
    foldl
      (λ all_holes hole,
         if negb (is_empty hole) then
           match multi_geoms hole with
           | Some geoms =>
               foldl (λ all_holes minihole, all_holes ++ [minihole]) all_holes geoms
           | None => all_holes ++ [hole]
           end
         else all_holes)
      [] holes in
  shell ← exterior_coords boundary;
  inner ← for_each exterior_coords all_holes;
  Ok (shapely_Polygon_holes shell inner).

(** The body of the loop of [validSolution]: [Ok false] where the body
    returns [False], [Ok true] where it runs to its end. *)
Definition valid_entry (sheets : list Document) (tolerance : float)
    (entry : Z * Document) : result bool :=
  let '(sheet_id, packed_shapes) := entry in
  if Z.of_nat (length sheets) <=? sheet_id then Ok false
  else
    '(_, placed_polygons) ←
      extract_shapely_polygons packed_shapes (tolerance / 2)%float;
    polygons_with_holes ←
      for_each
        (λ '(boundary, holes),
           g ← make_polygon_with_holes boundary holes; Ok (erode g tolerance))
        placed_polygons;
    sheet_svg ← py_index sheets sheet_id;
    '(h, w) ← get_sheet_dimensions sheet_svg;
    let sheet := shapely_Polygon [(0, 0); (w, 0); (w, h); (0, h)]%float in
    on_sheet ←
      py_all (λ poly, Ok (negb (negb (is_empty poly) && negb (contains sheet poly))))
        polygons_with_holes;
    if negb on_sheet then Ok false
    else
      let n := Z.of_nat (length polygons_with_holes) in
      apart ←
        py_all
          (λ i,
             py_all
               (λ j,
                  poly_a ← py_index polygons_with_holes i;
                  poly_b ← py_index polygons_with_holes j;
                  Ok (negb (intersects poly_a poly_b)))
               (py_range2 (i + 1) n))
          (py_range n);
      if negb apart then Ok false
      else
        sheet_svg ← py_index sheets sheet_id;
        '(_, holes) ← extract_shapely_polygons sheet_svg (tolerance / 2)%float;
        py_all
          (λ poly,
             py_all (λ '(hole, _), Ok (negb (intersects poly hole))) holes)
          polygons_with_holes.

(** [validSolution]; its [shapes] argument is not read. *)
Definition validSolution (solution : list (Z * Document)) (sheets : list Document)
    (shapes : Document) (tolerance : float) : result bool :=
  py_all (valid_entry sheets tolerance) solution.

End Validator.

(** ** The native extension, modelled from the specification

    The C++ sources of [_packaide] are not part of the Python package; the
    definitions of this part follow sections 4.D and 4.E of the
    specification. *)

(** Modelled from the spec: the geometric back end of the NFP engine, which
    section 4.D leaves open ("the spec does not prescribe one"): the
    fingerprint of a shape (the identity under which its NFPs are cached),
    the no-fit polygon the engine computes from a stationary and an orbiting
    polygon for a rotation of the orbiter, the inner-fit polygon of a sheet
    rectangle for an orbiter, the difference of two regions, and the pose of
    a part under a rotation and a translation.  A rotation is the pair
    [(k, rotations)] standing for [k * 360 / rotations] degrees. *)
Class NfpBackend : Type := {
  Fingerprint : Type;
  #[global] Fingerprint_eq_dec :: EqDecision Fingerprint;
  #[global] Fingerprint_countable :: Countable Fingerprint;
  fingerprint : PolygonWithHoles → Fingerprint;
  compute_nfp : PolygonWithHoles → PolygonWithHoles → Z * Z → list Polygon;
  ifp_of : float → float → PolygonWithHoles → Z * Z → list Polygon;
  subtract : list Polygon → list Polygon → list Polygon;
  pose : PolygonWithHoles → Z * Z → Point → PolygonWithHoles;
}.

(** Modelled from the spec: the sheet of section 3, a rectangle and its
    forbidden polygons (sheet holes first, then the parts placed so far). *)
Record SheetModel : Type := mkSheetModel {
  height : float;
  width : float;
  obstacles : list PolygonWithHoles;
}.

(** Modelled from the spec: the State of section 3, the NFP cache keyed by
    the two fingerprints and the rotation of the orbiter. *)
Abbreviation Cache := (gmap (Fingerprint * Fingerprint * (Z * Z)) (list Polygon)).

Section KernelModel.
Context `{backend : !NfpBackend}.

(** Modelled from the spec: the State a caller creates, an empty cache. *)
Definition empty_cache : Cache := ∅.

(** Modelled from the spec: the State is passed by reference into the pack
    operations (section 3); a computation of the engine or the driver reads
    the cache and returns it, possibly grown. *)
Definition Cached (A : Type) : Type := Cache → A * Cache.

(** Modelled from the spec: a step that does not use the cache. *)
Definition cached_ret {A} (a : A) : Cached A := λ st, (a, st).

(** Modelled from the spec: one step after another, on the same cache. *)
Definition cached_bind {A B} (m : Cached A) (f : A → Cached B) : Cached B :=
  λ st, let '(a, st) := m st in f a st.

(** Modelled from the spec: a loop of the driver, on the same cache. *)
Fixpoint cached_fold {A S} (f : S → A → Cached S) (l : list A) (s : S) : Cached S :=
  match l with
  | [] => cached_ret s
  | a :: l' => cached_bind (f s a) (cached_fold f l')
  end.

(** Modelled from the spec: the cache contract of section 4.D.  The key is
    made of the fingerprints of the two polygons and the rotation of the
    orbiter.  On a miss the engine computes the NFP from the two polygons
    and inserts it; on a hit it returns the cached rings, whatever polygons
    they were computed from. *)
Definition nfp (A B : PolygonWithHoles) (r : Z * Z) : Cached (list Polygon) :=
  λ st,
    let key := (fingerprint A, fingerprint B, r) in
    match st !! key with
    | Some rings => (rings, st)
    | None =>
        let rings := compute_nfp A B r in
        (rings, <[key := rings]> st)
    end.

(** Modelled from the spec: the reference point of a polygon, its first
    boundary vertex. *)
Definition reference (A : PolygonWithHoles) : Point :=
  default (mkPoint 0 0) (head (points (boundary A))).

(** Modelled from the spec: the rings of an NFP are translations of the
    reference point (section 4.D); moved by [t], they are those around a
    stationary polygon whose reference point is [t]. *)
Definition translate_rings (t : Point) (rings : list Polygon) : list Polygon :=
  (λ ring,
     mkPolygon ((λ p, mkPoint (pt_x p + pt_x t) (pt_y p + pt_y t))%float
                  <$> points ring)) <$> rings.

(** Modelled from the spec: the NFP of the stationary [A] where it sits, for
    the orbiter [B]; the cached NFP does not depend on the position. *)
Definition nfp_at (A B : PolygonWithHoles) (r : Z * Z) : Cached (list Polygon) :=
  cached_bind (nfp A B r) (λ rings, cached_ret (translate_rings (reference A) rings)).

(** Modelled from the spec: feasibility aggregation (section 4.D), the IFP
    as the starting region, each NFP subtracted in turn. *)
Definition feasible (sheet : SheetModel) (B : PolygonWithHoles) (r : Z * Z)
  : Cached (list Polygon) :=
  cached_fold
    (λ F A, cached_bind (nfp_at A B r) (λ N, cached_ret (subtract F N)))
    (obstacles sheet)
    (ifp_of (width sheet) (height sheet) B r).

(** Modelled from the spec: the cost rule of section 4.E, the vertex of the
    feasible region that minimises [(y, x)] lexicographically. *)
Definition lt_yx (p q : Point) : bool :=
  ((pt_y p <? pt_y q) || ((pt_y p =? pt_y q) && (pt_x p <? pt_x q)))%float.

(** Modelled from the spec: the vertex of least cost among the vertices of
    the feasible region, the first one on a tie. *)
Definition min_vertex (F : list Polygon) : option Point :=
  foldl
    (λ best v,
       match best with
       | None => Some v
       | Some b => if lt_yx v b then Some v else Some b
       end)
    None (F ≫= points).

(** Modelled from the spec: a candidate is a sheet index, a rotation index
    and a translation; a new candidate replaces the best one only when its
    cost is less, so ties stay with the earlier candidate. *)
Definition better (best : option (nat * Z * Point)) (i : nat) (k : Z)
    (v : option Point) : option (nat * Z * Point) :=
  match v, best with
  | None, _ => best
  | Some t, None => Some (i, k, t)
  | Some t, Some (_, _, t') => if lt_yx t t' then Some (i, k, t) else best
  end.

(** Modelled from the spec: step 1 and the choice of step 2 of the per-part
    loop (section 4.E): every sheet in index order, every rotation; minimum
    cost, ties to the lowest sheet index, then the smallest rotation index. *)
Definition best_placement (sheets : list SheetModel) (B : PolygonWithHoles)
    (rotations : Z) : Cached (option (nat * Z * Point)) :=
  cached_fold
    (λ best '(i, sheet),
       cached_fold
         (λ best k,
            cached_bind (feasible sheet B (k, rotations))
              (λ F, cached_ret (better best i k (min_vertex F))))
         (py_range rotations) best)
    (imap pair sheets) None.

(** Modelled from the spec: the rotation set of section 4.E, the angle
    [k * 360 / rotations] in degrees. *)
Definition angle (k rotations : Z) : float :=
  (py_float k * 360 / py_float rotations)%float.

(** Modelled from the spec: a placed part is appended to the obstacles of its
    sheet. *)
Definition add_obstacle (A : PolygonWithHoles) (sheet : SheetModel) : SheetModel :=
  mkSheetModel (height sheet) (width sheet) (obstacles sheet ++ [A]).

(** Modelled from the spec: steps 2 and 3 of the per-part loop.  A placed
    part joins the obstacles of its sheet; a part that fits nowhere ends the
    run without placements unless a partial solution was asked for. *)
Fixpoint place_all (partial_solution : bool) (rotations : Z)
    (parts : list (Z * PolygonWithHoles)) (sheets : list SheetModel)
    (placed : list (list Placement)) : Cached (option (list (list Placement))) :=
  match parts with
  | [] => cached_ret (Some placed)
  | (id, B) :: rest =>
      cached_bind (best_placement sheets B rotations)
        (λ best,
           match best with
           | Some (i, k, t) =>
               place_all partial_solution rotations rest
                 (alter (add_obstacle (pose B (k, rotations) t)) i sheets)
                 (alter (λ ps, ps ++ [mkPlacement id (mkTransform t (angle k rotations))])
                    i placed)
           | None =>
               if partial_solution
               then place_all partial_solution rotations rest sheets placed
               else cached_ret None
           end)
  end.

(** Modelled from the spec: the least and the greatest of two coordinates,
    for bounding boxes (section 4.A). *)
Definition fmin (a b : float) : float := if (b <? a)%float then b else a.
Definition fmax (a b : float) : float := if (a <? b)%float then b else a.

(** Modelled from the spec: the bounding-box area by which parts are
    ordered. *)
Definition bbox_area (B : PolygonWithHoles) : float :=
  match points (boundary B) with
  | [] => 0%float
  | p :: ps =>
      let xmin := foldl (λ m q, fmin m (pt_x q)) (pt_x p) ps in
      let xmax := foldl (λ m q, fmax m (pt_x q)) (pt_x p) ps in
      let ymin := foldl (λ m q, fmin m (pt_y q)) (pt_y p) ps in
      let ymax := foldl (λ m q, fmax m (pt_y q)) (pt_y p) ps in
      ((xmax - xmin) * (ymax - ymin))%float
  end.

(** Modelled from the spec: the ordering of section 4.E, descending
    bounding-box area, ties by original index (a stable insertion sort). *)
Fixpoint insert_part (a : Z * PolygonWithHoles) (l : list (Z * PolygonWithHoles))
  : list (Z * PolygonWithHoles) :=
  match l with
  | [] => [a]
  | b :: l' =>
      if (bbox_area a.2 <? bbox_area b.2)%float then b :: insert_part a l'
      else a :: b :: l'
  end.

(** Modelled from the spec: the parts in placement order. *)
Definition sort_parts (l : list (Z * PolygonWithHoles)) : list (Z * PolygonWithHoles) :=
  foldr insert_part [] l.

(** Modelled from the spec: the first-fit-decreasing driver of section 4.E,
    the [pack_decreasing] of the native extension. *)
Definition pack_decreasing_model (sheets : list SheetModel)
    (polygons : list PolygonWithHoles) (state : Cache)
    (partial_solution : bool) (rotations : Z) : list (list Placement) * Cache :=
  let parts := sort_parts (imap (λ i B, (Z.of_nat i, B)) polygons) in
  let '(res, state) :=
    place_all partial_solution rotations parts sheets
      (replicate (length sheets) []) state in
  (default [] res, state).

(** Modelled from the spec: [sheet_add_holes], the forbidden regions of a
    sheet document become stationary obstacles of the sheet. *)
Definition sheet_add_holes_model (sheet : SheetModel) (holes : list Polygon)
    (state : Cache) : SheetModel * Cache :=
  (mkSheetModel (height sheet) (width sheet)
     (obstacles sheet ++ (PolygonWithHoles_new <$> holes)),
   state).

(** Modelled from the spec: the native extension [_packaide] as sections 3,
    4.D and 4.E describe it. *)
Definition native_model : Native := {|
  State := Cache;
  State_new := empty_cache;
  Sheet := SheetModel;
  Sheet_new := mkSheetModel 0 0 [];
  Sheet_set_size := λ sheet h w, mkSheetModel h w (obstacles sheet);
  sheet_add_holes := sheet_add_holes_model;
  pack_decreasing := pack_decreasing_model;
|}.

End KernelModel.

(** ** A small implementation of the interfaces, to run the model

    These are stand-ins, not the libraries: paths are polylines, geometries
    are lists of rings that are offset as bounding boxes, and the NFP back
    end works on bounding boxes over the integer grid of translations and
    does not rotate. *)

Module Sample.

(** The greatest integer not above [f] (0 where [f] is not finite). *)
Definition floor (f : float) : Z :=
  match py_ceil (- f)%float with
  | Ok z => - z
  | Raise _ => 0
  end.

(** The sum of a list of floats, from the left. *)
Definition fsum (l : list float) : float := foldl PrimFloat.add 0%float l.

(** The Euclidean distance of two points. *)
Definition euclid (p q : float * float) : float :=
  PrimFloat.sqrt ((p.1 - q.1) * (p.1 - q.1) + (p.2 - q.2) * (p.2 - q.2))%float.

(** A polyline path: its subpaths, each the list of its vertices. *)
Definition polyline : Type := list (list (float * float)).

(** All vertices of a polyline, subpath after subpath. *)
Definition polyline_vertices (p : polyline) : list (float * float) := concat p.

(** The point at parameter [t]: the first vertex at 0, the last at 1, the
    vertex of index [floor (t * last)] in between. *)
Definition polyline_point (p : polyline) (t : float) : float * float :=
  let vs := polyline_vertices p in
  let last := (length vs - 1)%nat in
  let i := if (t <=? 0)%float then 0%nat
           else if (1 <=? t)%float then last
           else Z.to_nat (floor (t * py_float (Z.of_nat last))%float) in
  default (0%float, 0%float) (vs !! i).

(** The length of one subpath. *)
Fixpoint polyline_length_of (vs : list (float * float)) : float :=
  match vs with
  | v :: (w :: _) as rest => (euclid v w + polyline_length_of rest)%float
  | _ => 0%float
  end.

#[export] Instance svg : SvgElements := {|
  Path := polyline;
  path_len := λ p, length (polyline_vertices p);
  path_subpath := λ p i, match p !! i with Some s => [s] | None => [] end;
  path_as_subpaths := λ p, (λ s, [s]) <$> p;
  path_point := polyline_point;
  path_length := λ p, fsum (polyline_length_of <$> p);
  distance_to := euclid;
|}.

(** The bounding box of a list of coordinates: [(xmin, xmax, ymin, ymax)]. *)
Definition bbox (ring : list (float * float))
  : option (float * float * float * float) :=
  match ring with
  | [] => None
  | p :: ps =>
      Some (foldl (λ m q, fmin m q.1) p.1 ps, foldl (λ m q, fmax m q.1) p.1 ps,
            foldl (λ m q, fmin m q.2) p.2 ps, foldl (λ m q, fmax m q.2) p.2 ps)
  end.

(** The closed ring of a box, or nothing when the box is inside out. *)
Definition box_ring (b : float * float * float * float)
  : option (list (float * float)) :=
  let '(x0, x1, y0, y1) := b in
  if ((x1 <? x0) || (y1 <? y0))%float then None
  else Some [(x0, y0); (x1, y0); (x1, y1); (x0, y1); (x0, y0)].

(** Offsetting a ring: its bounding box, grown by [d] on every side. *)
Definition grow (d : float) (ring : list (float * float))
  : option (list (float * float)) :=
  b ← bbox ring;
  let '(x0, x1, y0, y1) := b in
  box_ring (x0 - d, x1 + d, y0 - d, y1 + d)%float.

#[export] Instance shapely : Shapely := {|
  Geometry := list (list (float * float));
  shapely_Polygon := λ pts, [pts ++ take 1 pts];
  buffer := λ g d _ _ _, omap (grow d) g;
  simplify := λ g _, g;
  is_empty := λ g, match g with [] => true | _ => false end;
  multi_geoms := λ g,
    match g with
    | _ :: _ :: _ => Some ((λ r, [r]) <$> g)
    | _ => None
    end;
  exterior_xy := λ g,
    match g with
    | [] => Ok ([], [])
    | [ring] => Ok (ring.*1, ring.*2)
    | _ => Raise AttributeError
    end;
|}.

(** The bounding box of a part relative to its reference vertex, on the
    integer grid: [(x0, x1, y0, y1)]. *)
Definition grid_box (B : PolygonWithHoles) : Z * Z * Z * Z :=
  let r := reference B in
  match bbox ((λ p, (pt_x p - pt_x r, pt_y p - pt_y r)%float)
                <$> points (boundary B)) with
  | Some (x0, x1, y0, y1) =>
      (floor x0, - floor (- x1), floor y0, - floor (- y1))
  | None => (0, 0, 0, 0)
  end.

(** A point of the integer grid. *)
Definition grid_point (x y : Z) : Point := mkPoint (py_float x) (py_float y).

(** The integers from [lo] to [hi]. *)
Definition zrange (lo hi : Z) : list Z :=
  (λ i, lo + Z.of_nat i) <$> seq 0 (Z.to_nat (hi - lo + 1)).

(** The translations at which box [b] overlaps box [a], as one ring. *)
Definition grid_nfp (a b : Z * Z * Z * Z) : list Polygon :=
  let '(ax0, ax1, ay0, ay1) := a in
  let '(bx0, bx1, by0, by1) := b in
  [mkPolygon [grid_point (ax0 - bx1) (ay0 - by1); grid_point (ax1 - bx0) (ay0 - by1);
              grid_point (ax1 - bx0) (ay1 - by0); grid_point (ax0 - bx1) (ay1 - by0)]].

(** The grid translations at which box [b] lies on a [w] by [h] sheet, as the
    vertices of one ring. *)
Definition grid_ifp (w h : float) (b : Z * Z * Z * Z) : list Polygon :=
  let '(bx0, bx1, by0, by1) := b in
  match (y ← zrange (- by0) (floor h - by1);
         (λ x, grid_point x y) <$> zrange (- bx0) (floor w - bx1)) with
  | [] => []
  | vs => [mkPolygon vs]
  end.

(** Strictly inside the bounding box of one of the rings. *)
Definition strictly_inside (N : list Polygon) (v : Point) : bool :=
  existsb
    (λ ring,
       match bbox ((λ p, (pt_x p, pt_y p)) <$> points ring) with
       | Some (x0, x1, y0, y1) =>
           ((x0 <? pt_x v) && (pt_x v <? x1) &&
            (y0 <? pt_y v) && (pt_y v <? y1))%float
       | None => false
       end)
    N.

(** The grid translations of [F] that are not strictly inside [N]. *)
Definition grid_subtract (F N : list Polygon) : list Polygon :=
  (λ ring,
     mkPolygon (List.filter (λ v, negb (strictly_inside N v)) (points ring)))
    <$> F.

(** The part moved so that its reference vertex sits at [t]. *)
Definition grid_pose (B : PolygonWithHoles) (t : Point) : PolygonWithHoles :=
  let r := reference B in
  let move := λ P, mkPolygon
    ((λ p, mkPoint (pt_x p - pt_x r + pt_x t) (pt_y p - pt_y r + pt_y t))%float
       <$> points P) in
  mkPolygonWithHoles (move (boundary B)) (move <$> holes B).

(** The fingerprint of a part is its grid box, from which its NFPs are
    made. *)
#[export] Instance backend : NfpBackend := {|
  Fingerprint := Z * Z * Z * Z;
  fingerprint := grid_box;
  compute_nfp := λ A B _, grid_nfp (grid_box A) (grid_box B);
  ifp_of := λ w h B _, grid_ifp w h (grid_box B);
  subtract := grid_subtract;
  pose := λ B _ t, grid_pose B t;
|}.

#[export] Instance native : Native := native_model.

(** Documents to run the model on. *)
Definition rect (x y w h : float) : polyline :=
  [[(x, y); (x + w, y); (x + w, y + h); (x, y + h); (x, y)]]%float.

Definition shape_element (values : gmap string string) (p : polyline) : Element :=
  mkElement (SvgShape p) values EmptyString.

(** Attribute dictionaries: none, hidden the way the module tests it, and
    with a hidden visibility only. *)
Definition plain : gmap string string := ∅.
Definition hidden_attrs : gmap string string :=
  {[ "hidden"%string := EmptyString; "visibility"%string := "hidden"%string ]}.
Definition invisible_attrs : gmap string string :=
  {[ "visibility"%string := "hidden"%string ]}.

(** A 20 by 20 sheet with a 5 by 5 square in its corner. *)
Definition sheet_with_hole : Document :=
  mkDocument [0; 0; 20; 20]%float [shape_element plain (rect 0 0 5 5)].

(** A 20 by 20 sheet whose shape is a 10 by 10 square with an 8 by 8 hole. *)
Definition sheet_with_ring : Document :=
  mkDocument [0; 0; 20; 20]%float
    [mkElement (SvgPath (rect 0 0 10 10 ++ rect 1 1 8 8)) plain EmptyString].

(** Two squares, 5 by 5 and 2 by 2. *)
Definition two_squares : Document :=
  mkDocument [0; 0; 100; 100]%float
    [shape_element plain (rect 0 0 5 5); shape_element plain (rect 0 0 2 2)].

(** A square, an open path, a group, a square hidden the way the module
    tests it, and a square whose visibility alone is hidden. *)
Definition open_path : polyline := [[(0, 0); (5, 0); (5, 5)]]%float.
Definition hidden_square : Element := shape_element hidden_attrs (rect 0 0 3 3).
Definition invisible_square : Element := shape_element invisible_attrs (rect 0 0 4 4).
Definition mixed : Document :=
  mkDocument [0; 0; 100; 100]%float
    [shape_element plain (rect 0 0 5 5);
     mkElement (SvgPath open_path) plain EmptyString;
     mkElement SvgOther plain EmptyString;
     hidden_square;
     invisible_square].

Definition store0 : Store :=
  {| persistent_state := empty_cache; user_states := λ _, empty_cache |}.

(** What the model computes on these documents. *)
Definition ok_or {A} (d : A) (r : result A) : A :=
  match r with
  | Ok a => a
  | Raise _ => d
  end.

Definition mixed_ingest : list Element * list (Geometry * list Geometry) :=
  Eval vm_compute in ok_or ([], []) (extract_shapely_polygons mixed 1).

Definition ring_polygons : list Element * list PolygonWithHoles :=
  Eval vm_compute in ok_or ([], []) (extract_polygons sheet_with_ring 1 1).

Definition ring_sheet : SheetModel :=
  Eval vm_compute in
    ok_or (mkSheetModel 0 0 []) (build_sheet 1 1 sheet_with_ring empty_cache).1.

(** Both squares fit the sheet with the hole. *)
Definition both_placed : list (Z * OutputDoc) * Z * Z :=
  Eval vm_compute in
    ok_or ([], 0, 0)
      (pack [sheet_with_hole] two_squares 1 1 false 1 false None store0).1.

(** On a blank 10 by 10 sheet only one of the two squares fits. *)
Definition one_placed : list (Z * OutputDoc) * Z * Z :=
  Eval vm_compute in
    ok_or ([], 0, 0)
      (pack [blank_sheet 10 10] two_squares 1 1 true 1 false None store0).1.

(** A store whose user-owned state 1 has served one call of [pack]. *)
Definition store1 : Store :=
  {| persistent_state := empty_cache;
     user_states := λ _,
       (pack_on [sheet_with_hole] two_squares 1 1 false 1 empty_cache).2 |}.

End Sample.

(** More stand-ins and documents: the predicates of the validator on
    bounding boxes (a polygon with holes is its shell), and the documents of
    the validator's own tests. *)

Module SampleChecks.
Import Sample.

(** The bounding boxes of the rings of a geometry. *)
Definition boxes (g : Geometry) : list (float * float * float * float) :=
  omap bbox g.

(** Two boxes meet; the second box lies within the first. *)
Definition box_meets (a b : float * float * float * float) : bool :=
  let '(ax0, ax1, ay0, ay1) := a in
  let '(bx0, bx1, by0, by1) := b in
  ((ax0 <=? bx1) && (bx0 <=? ax1) && (ay0 <=? by1) && (by0 <=? ay1))%float.
Definition box_within (a b : float * float * float * float) : bool :=
  let '(ax0, ax1, ay0, ay1) := a in
  let '(bx0, bx1, by0, by1) := b in
  ((ax0 <=? bx0) && (bx1 <=? ax1) && (ay0 <=? by0) && (by1 <=? ay1))%float.

#[export] Instance predicates : ShapelyPredicates := {|
  exterior_coords := λ g,
    match g with
    | [] => Ok []
    | [ring] => Ok ring
    | _ => Raise AttributeError
    end;
  shapely_Polygon_holes := λ shell _, [shell];
  contains := λ a b,
    forallb (λ inner, existsb (λ outer, box_within outer inner) (boxes a)) (boxes b);
  intersects := λ a b,
    existsb (λ box, existsb (box_meets box) (boxes b)) (boxes a);
|}.

(** The documents of [ValidatorTest]. *)
Definition rects (l : list polyline) : Document :=
  mkDocument [0; 0; 100; 100]%float (shape_element plain <$> l).

Definition corner_sheet : Document := rects [rect 0 0 5 5].
Definition second_sheet : Document := rects [rect 6 0 5 5].
Definition apart_shapes : Document := rects [rect 6 0 5 5; rect 0 6 5 5].
Definition overlapped_shapes : Document := rects [rect 6 0 5 5; rect 10 4 5 5].
Definition off_sheet_shapes : Document := rects [rect 99 99 5 5].
Definition on_hole_shapes : Document := rects [rect 2 3 5 5].

(** A document whose view box holds three numbers, and one with an element
    that has an attribute named [hidden] and no [visibility]. *)
Definition no_view_box : Document :=
  mkDocument [0; 0; 100]%float [shape_element plain (rect 0 0 5 5)].
Definition half_hidden : gmap string string :=
  {[ "hidden"%string := EmptyString ]}.
Definition unreadable : Document :=
  mkDocument [0; 0; 100; 100]%float
    [shape_element plain (rect 0 0 5 5); shape_element half_hidden (rect 0 0 3 3)].

(** What the model computes on these documents. *)
Definition square_samples : Geometry :=
  Eval vm_compute in ok_or [] (discretize_path (rect 0 0 5 5) 1).

Definition ring_outlines : list Element * list (Geometry * list Geometry) :=
  Eval vm_compute in ok_or ([], []) (extract_shapely_polygons sheet_with_ring 1).

Definition squares : list Element * list PolygonWithHoles :=
  Eval vm_compute in ok_or ([], []) (extract_polygons two_squares 1 1).

(** The tolerance of the validator's tests, [0.1]: the nearest binary64
    number. *)
Definition tenth : float := 0x1.999999999999ap-4%float.

(** A back end like the sample one, but whose fingerprint tells no two
    shapes apart, and the native extension on it. *)
Definition blind : NfpBackend := {|
  Fingerprint := unit;
  fingerprint := λ _, tt;
  compute_nfp := λ A B _, grid_nfp (grid_box A) (grid_box B);
  ifp_of := λ w h B _, grid_ifp w h (grid_box B);
  subtract := grid_subtract;
  pose := λ B _ t, grid_pose B t;
|}.
Definition blind_native : Native := @native_model blind.

(** A 20 by 20 sheet with an 8 by 8 square in its corner, a 2 by 2 square to
    pack, and the blind state that served one call on them. *)
Definition wide_sheet : Document :=
  mkDocument [0; 0; 20; 20]%float [shape_element plain (rect 0 0 8 8)].
Definition small_square : Document := rects [rect 0 0 2 2].
Definition blind_served : @State blind_native :=
  (@pack_on svg shapely blind_native [wide_sheet] small_square 1 1 false 1
     (@empty_cache blind)).2.

(** The horizontal translation of the first shape of a solution. *)
Definition first_tx (r : result (list (Z * OutputDoc) * Z * Z)) : float :=
  match r with
  | Ok ((_, doc) :: _, _, _) =>
      match out_shapes doc with
      | sh :: _ => tr_tx (shape_transform sh)
      | [] => 0
      end
  | _ => 0
  end.

(** A placement of polygon [id] at the origin. *)
Definition at_origin (id : Z) : Placement :=
  mkPlacement id (mkTransform (mkPoint 0 0) 0).

End SampleChecks.

(** * The vocabulary of the claims *)

(** ** Ingest *)

Section IngestVocabulary.
Context `{svgelements : !SvgElements, shapely : !Shapely}.

(** The path of an element: the element itself when it is a path, its
    conversion when it is another shape. *)
Definition element_path (e : Element) : option Path :=
  match el_class e with
  | SvgPath p | SvgShape p => Some p
  | SvgOther => None
  end.

(** The start and the end of the first subpath are within the tolerance. *)
Definition ends_within (p : Path) (tolerance : float) : Prop :=
  (distance_to (path_point (path_subpath p 0) 0) (path_point (path_subpath p 0) 1)
     <? tolerance)%float = true.

(** A non-empty path (or shape converted to a path) that is closed. *)
Definition nonempty_closed (tolerance : float) (e : Element) : Prop :=
  ∃ p, element_path e = Some p ∧ path_len p ≠ 0%nat ∧ ends_within p tolerance.

(** The element carries an attribute named [hidden] and its [visibility] is
    [hidden]. *)
Definition marked_hidden (e : Element) : Prop :=
  is_Some (el_values e !! "hidden"%string) ∧
  el_values e !! "visibility"%string = Some "hidden"%string.

(** An element is retained when the hidden test lets it through and it is a
    non-empty closed path. *)
Definition retained (tolerance : float) (e : Element) : bool :=
  match is_hidden e, element_path e with
  | Ok false, Some p => negb (path_len p =? 0)%nat && is_closed p tolerance
  | _, _ => false
  end.

(** The paths of the retained elements of a document, in document order. *)
Definition retained_paths (tolerance : float) (doc : Document) : list Path :=
  omap (λ e, if retained tolerance e then element_path e else None)
    (doc_elements doc).

(** The boundary of an outline: the discretized first subpath, buffered by
    [1.5 * tolerance] (square caps, mitre joins, mitre limit 5), simplified
    with [tolerance]. *)
Definition conservative_boundary (tolerance : float) (p : Path) (b : Geometry) : Prop :=
  ∃ d, discretize_path (path_subpath p 0) tolerance = Ok d ∧
       b = simplify (buffer d (1.5 * tolerance)%float 2 2 5%float) tolerance.

(** A hole of an outline: a discretized closed subpath, buffered by
    [- (1.5 * tolerance)] (square caps, mitre joins, mitre limit 5),
    simplified with [tolerance]. *)
Definition conservative_hole (tolerance : float) (q : Path) (h : Geometry) : Prop :=
  ∃ d, discretize_path q tolerance = Ok d ∧
       h = simplify (buffer d (- (1.5 * tolerance))%float 2 2 5%float) tolerance.

(** The vertices of a coordinate sequence whose last point repeats the first:
    all but the last. *)
Definition ring_points (xy : list float * list float) : list Point :=
  take (length xy.1 - 1) (zip_with mkPoint xy.1 xy.2).

(** [h] is the exterior ring of [g]. *)
Definition is_ring_of (g : Geometry) (h : Polygon) : Prop :=
  ∃ xy, exterior_xy g = Ok xy ∧ points h = ring_points xy.

(** The polygons a hole geometry stands for: none when it is empty, its
    members when it is a multi-polygon, itself otherwise. *)
Definition components (g : Geometry) : list Geometry :=
  if is_empty g then []
  else match multi_geoms g with
       | Some geoms => geoms
       | None => [g]
       end.

(** The retention rule as the specification states it: an element is
    retained exactly when it is a non-empty closed path. *)
Definition retained_iff_closed (doc : Document) (tolerance : float) : Prop :=
  ∀ els sps e,
    extract_shapely_polygons doc tolerance = Ok (els, sps) →
    e ∈ doc_elements doc →
    (e ∈ els ↔ nonempty_closed tolerance e).

End IngestVocabulary.

(** ** The output of [pack] *)

Section PackVocabulary.
Context `{svgelements : !SvgElements, shapely : !Shapely, native : !Native}.

(** The shape [pack] writes for one placement. *)
Definition shape_of_placement (elements : list Element)
    (polygons : list PolygonWithHoles) (placement : Placement)
    (shape : PlacedShape) : Prop :=
  ∃ polygon p0 element,
    py_index polygons (polygon_id placement) = Ok polygon ∧
    py_index (points (boundary polygon)) 0 = Ok p0 ∧
    py_index elements (polygon_id placement) = Ok element ∧
    shape = mkPlacedShape (flatten_shape element)
      (mkSvgTransform
         (pt_x (translate (transform placement)) - pt_x p0)%float
         (pt_y (translate (transform placement)) - pt_y p0)%float
         (rotate (transform placement)) (pt_x p0) (pt_y p0)).

(** The output document [pack] writes for sheet [i] and its placements. *)
Definition output_of_sheet (sheet_svgs : list Document) (elements : list Element)
    (polygons : list PolygonWithHoles) (ip : Z * list Placement)
    (out : Z * OutputDoc) : Prop :=
  out.1 = ip.1 ∧
  (∃ sheet, py_index sheet_svgs ip.1 = Ok sheet ∧
            out_viewBox out.2 = viewBox sheet) ∧
  Forall2 (shape_of_placement elements polygons) ip.2 (out_shapes out.2).

(** The selection rule as the specification states it: a [custom_state]
    that is provided is the [State] [pack] works on. *)
Definition custom_state_is_used (sheet_svgs : list Document) (shapes : Document)
    (offset tolerance : float) (partial_solution : bool) (rotations : Z)
    (persist : bool) (l : nat) (store : Store) : Prop :=
  pack sheet_svgs shapes offset tolerance partial_solution rotations
    persist (Some l) store
  = ((pack_on sheet_svgs shapes offset tolerance partial_solution rotations
        (user_states store l)).1,
     {| persistent_state := persistent_state store;
        user_states :=
          <[l := (pack_on sheet_svgs shapes offset tolerance partial_solution
                    rotations (user_states store l)).2]> (user_states store) |}).

End PackVocabulary.

(** ** The cache of the modelled native extension *)

Section KernelVocabulary.
Context `{backend : !NfpBackend}.

(** The fingerprint is canonical (sections 3 and 4.D): the NFP the engine
    computes depends on the two polygons through their fingerprints only. *)
Definition canonical_fingerprint : Prop :=
  ∀ A A' B B' r,
    fingerprint A = fingerprint A' → fingerprint B = fingerprint B' →
    compute_nfp A B r = compute_nfp A' B' r.

(** Every entry of the cache is the NFP the engine computes from any two
    polygons that have the fingerprints of its key. *)
Definition cache_sound (st : Cache) : Prop :=
  ∀ A B r rings,
    st !! (fingerprint A, fingerprint B, r) = Some rings →
    rings = compute_nfp A B r.

(** From every sound cache the computation returns [a], and leaves a sound
    cache. *)
Definition pure_of {A} (m : Cached A) (a : A) : Prop :=
  ∀ st, cache_sound st → (m st).1 = a ∧ cache_sound (m st).2.

(** Whatever sound cache it starts from, the computation returns the same. *)
Definition transparent {A} (m : Cached A) : Prop := ∃ a, pure_of m a.

(** The NFP of [A] where it sits, computed without the cache. *)
Definition nfp_at_pure (A B : PolygonWithHoles) (r : Z * Z) : list Polygon :=
  translate_rings (reference A) (compute_nfp A B r).

(** The feasible region, computed without the cache. *)
Definition feasible_pure (sheet : SheetModel) (B : PolygonWithHoles) (r : Z * Z)
  : list Polygon :=
  foldl (λ F A, subtract F (nfp_at_pure A B r))
    (ifp_of (width sheet) (height sheet) B r) (obstacles sheet).

(** The best placement, computed without the cache. *)
Definition best_placement_pure (sheets : list SheetModel) (B : PolygonWithHoles)
    (rotations : Z) : option (nat * Z * Point) :=
  foldl
    (λ best '(i, sheet),
       foldl (λ best k, better best i k (min_vertex (feasible_pure sheet B (k, rotations))))
         best (py_range rotations))
    None (imap pair sheets).

End KernelVocabulary.

Section ModelVocabulary.
Context `{svgelements : !SvgElements, shapely : !Shapely, backend : !NfpBackend}.
#[local] Existing Instance native_model.

(** A [State] warmed by earlier calls of [pack]: a fresh [State()] on which
    any number of calls have worked. *)
Inductive warmed : Cache → Prop :=
  | warmed_fresh : warmed empty_cache
  | warmed_pack (sheet_svgs : list Document) (shapes : Document)
      (offset tolerance : float) (partial_solution : bool) (rotations : Z)
      (st : Cache) :
      warmed st →
      warmed
        (pack_on sheet_svgs shapes offset tolerance partial_solution rotations st).2.

End ModelVocabulary.

(** * The vocabulary of the further properties *)

Section OutputVocabulary.
Context `{svgelements : !SvgElements}.

(** A placement [pack] can write out: its id names, in Python's way of
    indexing, a polygon that has a first boundary vertex, and an element. *)
Definition placeable (elements : list Element) (polygons : list PolygonWithHoles)
    (pl : Placement) : Prop :=
  (∃ polygon, py_index polygons (polygon_id pl) = Ok polygon ∧
              points (boundary polygon) ≠ []) ∧
  - Z.of_nat (length elements) ≤ polygon_id pl < Z.of_nat (length elements).

End OutputVocabulary.

Section ReadableVocabulary.
Context `{svgelements : !SvgElements}.

(** A document ingest can read: its view box holds four numbers, and every
    element that has an attribute named [hidden] has a [visibility]. *)
Definition readable (doc : Document) : Prop :=
  length (viewBox doc) = 4%nat ∧
  ∀ e, e ∈ doc_elements doc →
       is_Some (el_values e !! "hidden"%string) →
       is_Some (el_values e !! "visibility"%string).

End ReadableVocabulary.

Section ValidatorVocabulary.
Context `{svgelements : !SvgElements, shapely : !Shapely,
          predicates : !ShapelyPredicates}.

(** The polygon with holes of an outline: the exterior of the boundary is
    its shell, the exteriors of the components of the holes are its holes. *)
Definition composite (sp : Geometry * list Geometry) (g : Geometry) : Prop :=
  ∃ shell inner,
    exterior_coords sp.1 = Ok shell ∧
    Forall2 (λ h c, exterior_coords h = Ok c) (sp.2 ≫= components) inner ∧
    g = shapely_Polygon_holes shell inner.

(** The rectangle of a sheet of height [h] and width [w]. *)
Definition sheet_rectangle (h w : float) : Geometry :=
  shapely_Polygon [(0, 0); (w, 0); (w, h); (0, h)]%float.

(** An entry of a solution passes the validator: its sheet id is below the
    number of sheets; its document and its sheet are read with half the
    tolerance; every part, eroded by the tolerance, is empty or lies in the
    sheet rectangle; no two parts intersect; no part intersects the boundary
    of a shape of the sheet. *)
Definition entry_accepted (sheets : list Document) (tolerance : float)
    (entry : Z * Document) : Prop :=
  entry.1 < Z.of_nat (length sheets) ∧
  ∃ els placed parts sheet_svg h w els' holes,
    extract_shapely_polygons entry.2 (tolerance / 2)%float = Ok (els, placed) ∧
    Forall2 (λ sp part, ∃ g, composite sp g ∧ part = erode g tolerance)
      placed parts ∧
    py_index sheets entry.1 = Ok sheet_svg ∧
    get_sheet_dimensions sheet_svg = Ok (h, w) ∧
    extract_shapely_polygons sheet_svg (tolerance / 2)%float = Ok (els', holes) ∧
    (∀ part, part ∈ parts →
       is_empty part = true ∨ contains (sheet_rectangle h w) part = true) ∧
    (∀ (i j : nat) a b,
       (i < j)%nat → parts !! i = Some a → parts !! j = Some b →
       intersects a b = false) ∧
    (∀ part hole, part ∈ parts → hole ∈ holes.*1 → intersects part hole = false).

End ValidatorVocabulary.

(** * Properties *)

(** ** Python numbers and lists *)

Example py_ceil_2_5 : py_ceil 2.5%float = Ok 3.
Proof. reflexivity. Qed.
Example py_ceil_neg : py_ceil (-2.5)%float = Ok (-2).
Proof. reflexivity. Qed.
Example py_ceil_int : py_ceil 200%float = Ok 200.
Proof. reflexivity. Qed.
Example py_float_7 : py_float 7 = 7%float.
Proof. reflexivity. Qed.
Example py_index_last : py_index [10; 20; 30] (-1) = Ok 30.
Proof. reflexivity. Qed.
Example py_index_out : py_index [10; 20; 30] 3 = Raise IndexError.
Proof. reflexivity. Qed.

(** ** The error monad and the loops *)

Lemma bind_Ok {A B} (m : result A) (f : A → result B) (b : B) :
  m ≫= f = Ok b ↔ ∃ a, m = Ok a ∧ f a = Ok b.
Proof.
  destruct m as [a|e]; simpl; split.
  - intros Hf. exists a. done.
  - intros (a' & [= <-] & Hf). done.
  - discriminate.
  - intros (a' & Hm & _). discriminate.
Qed.

Lemma py_assert_Ok (c : bool) (u : unit) : py_assert c = Ok u ↔ c = true.
Proof. destruct c, u; simpl; split; congruence. Qed.

(** Undo one monadic step of a hypothesis [... = Ok _]. *)
Ltac ok_step H :=
  match type of H with
  | (_ ≫= _) = Ok _ =>
      let a := fresh "a" in
      let Ha := fresh "Hok" in
      apply bind_Ok in H as (a & Ha & H)
  | py_assert _ = Ok _ => apply py_assert_Ok in H
  | Ok _ = Ok _ => injection H as H
  end.

Lemma for_each_Ok {A B} (f : A → result B) (l : list A) (bs : list B) :
  for_each f l = Ok bs ↔ Forall2 (λ a b, f a = Ok b) l bs.
Proof.
  revert bs. induction l as [|a l IH]; intros bs; simpl.
  - split.
    + intros [= <-]. constructor.
    + intros Hnil. by inversion Hnil.
  - split.
    + intros H. ok_step H. ok_step H. ok_step H. subst bs.
      constructor; [done|]. by apply IH.
    + intros Hcons. inversion Hcons as [|? b ? bs' Hb Hbs]; subst.
      rewrite Hb. simpl. apply IH in Hbs. rewrite Hbs. done.
Qed.

Lemma for_fold_cons {A S} (f : S → A → result S) (a : A) (l : list A) (s : S) :
  for_fold f (a :: l) s = f s a ≫= for_fold f l.
Proof. done. Qed.

(** ** Which elements are ingested *)

Section IngestFacts.
Context `{svgelements : !SvgElements, shapely : !Shapely}.

Lemma is_hidden_true (e : Element) : is_hidden e = Ok true ↔ marked_hidden e.
Proof.
  unfold is_hidden, marked_hidden, py_in, py_getitem.
  destruct (el_values e !! "hidden"%string) as [h|]; simpl.
  - destruct (el_values e !! "visibility"%string) as [v|]; simpl.
    + case_bool_decide as Hv; split.
      * intros _. split; [by eexists | by subst].
      * done.
      * discriminate.
      * intros [_ [= ->]]. done.
    + split; [discriminate | intros [_ [=]]].
  - split; [discriminate | intros [[? [=]] _]].
Qed.

Lemma is_hidden_false (e : Element) :
  is_hidden e = Ok false ↔
  el_values e !! "hidden"%string = None ∨
  (is_Some (el_values e !! "hidden"%string) ∧
   ∃ v, el_values e !! "visibility"%string = Some v ∧ v ≠ "hidden"%string).
Proof.
  unfold is_hidden, py_in, py_getitem.
  destruct (el_values e !! "hidden"%string) as [h|]; simpl.
  - destruct (el_values e !! "visibility"%string) as [v|]; simpl.
    + case_bool_decide as Hv; split.
      * discriminate.
      * intros [[=] | [_ (v' & [= <-] & Hne)]]. done.
      * intros _. right. split; [by eexists|]. by exists v.
      * done.
    + split; [discriminate | intros [[=] | [_ (v' & [=] & _)]]].
  - split; [by left | done].
Qed.

Lemma gather_Some (tolerance : float) (e e' : Element) (p : Path) :
  gather tolerance e = Ok (Some (e', p)) ↔
  e' = e ∧ is_hidden e = Ok false ∧ element_path e = Some p ∧
  path_len p ≠ 0%nat ∧ ends_within p tolerance.
Proof.
  unfold gather, element_path, ends_within, is_closed, get_boundary.
  destruct (is_hidden e) as [[|]|err]; simpl.
  - split; [discriminate | intros (_ & [=] & _)].
  - destruct (el_class e) as [q|q|]; simpl.
    1,2: destruct (Nat.eqb_spec (path_len q) 0) as [Hz|Hnz]; simpl;
         [ split; [discriminate | intros (_ & _ & [= <-] & Hp & _); done] |];
         destruct (_ <? _)%float eqn:Hc; simpl;
         [ split; [intros [= <- <-]; done | intros (-> & _ & [= <-] & _); done]
         | split; [discriminate | intros (_ & _ & [= <-] & _ & Hp); congruence] ].
    split; [discriminate | intros (_ & _ & [=] & _)].
  - split; [discriminate | intros (_ & [=] & _)].
Qed.

(** Where [extract_shapely_polygons] returns, its elements are the gathered
    elements of the document, in order, and the polygons are the outlines of
    their paths. *)
Lemma extract_shapely_polygons_Ok (doc : Document) (tolerance : float)
    (els : list Element) (sps : list (Geometry * list Geometry)) :
  extract_shapely_polygons doc tolerance = Ok (els, sps) →
  ∃ gathered,
    Forall2 (λ e g, gather tolerance e = Ok g) (doc_elements doc) gathered ∧
    els = (omap id gathered).*1 ∧
    Forall2 (λ p sp, outline tolerance p = Ok sp) (omap id gathered).*2 sps.
Proof.
  unfold extract_shapely_polygons. intros Hex.
  ok_step Hex. ok_step Hex. ok_step Hex. ok_step Hex.
  injection Hex as <- <-.
  exists a0. rewrite <- !for_each_Ok. done.
Qed.

Lemma extract_elements_iff (doc : Document) (tolerance : float)
    (els : list Element) (sps : list (Geometry * list Geometry)) (e : Element) :
  extract_shapely_polygons doc tolerance = Ok (els, sps) →
  e ∈ els ↔
  e ∈ doc_elements doc ∧ is_hidden e = Ok false ∧ nonempty_closed tolerance e.
Proof.
  intros (gathered & Hg & -> & _)%extract_shapely_polygons_Ok.
  rewrite list_elem_of_fmap. split.
  - intros ([e' p] & -> & Hin). simpl.
    apply list_elem_of_omap in Hin as (g & Hgin & Hg').
    simpl in Hg'. subst g.
    apply list_elem_of_lookup in Hgin as (i & Hi).
    destruct (Forall2_lookup_r _ _ _ _ _ Hg Hi) as (e0 & He0 & Hgather).
    apply gather_Some in Hgather as (-> & Hh & Hp & Hlen & Hc).
    split; [by eapply list_elem_of_lookup_2|].
    split; [done|]. by exists p.
  - intros (Hin & Hh & p & Hp & Hlen & Hc).
    apply list_elem_of_lookup in Hin as (i & Hi).
    destruct (Forall2_lookup_l _ _ _ _ _ Hg Hi) as (g & Hgi & Hgather).
    assert (gather tolerance e = Ok (Some (e, p))) as Hsome
      by (apply gather_Some; done).
    rewrite Hsome in Hgather. injection Hgather as <-.
    exists (e, p). split; [done|].
    apply list_elem_of_omap. exists (Some (e, p)).
    split; [by eapply list_elem_of_lookup_2 | done].
Qed.

End IngestFacts.

(** ** From shapely polygons to the polygons handed to the packer *)

Lemma py_index_nat {A} (l : list A) (k : nat) (a : A) :
  py_index l (Z.of_nat k) = Ok a ↔ l !! k = Some a.
Proof.
  unfold py_index.
  destruct (Z.ltb_spec (Z.of_nat k) 0) as [Hneg|_]; [lia|]. simpl.
  destruct (Z.ltb_spec (Z.of_nat k) 0) as [Hneg|_]; [lia|].
  rewrite Nat2Z.id. destruct (l !! k); split; congruence.
Qed.

Section PolygonFacts.
Context `{svgelements : !SvgElements, shapely : !Shapely}.

Lemma is_ring_of_inj (g : Geometry) (h1 h2 : Polygon) :
  is_ring_of g h1 → is_ring_of g h2 → h1 = h2.
Proof.
  intros (xy1 & Hx1 & Hp1) (xy2 & Hx2 & Hp2).
  rewrite Hx1 in Hx2. injection Hx2 as <-.
  destruct h1, h2. simpl in *. congruence.
Qed.

Lemma Forall2_is_ring_of_inj (gs : list Geometry) (hs1 hs2 : list Polygon) :
  Forall2 is_ring_of gs hs1 → Forall2 is_ring_of gs hs2 → hs1 = hs2.
Proof.
  intros H1. revert hs2.
  induction H1 as [|g h1 gs hs1 Hh1 _ IH]; intros hs2 H2; inversion H2; subst.
  - done.
  - f_equal; [by eapply is_ring_of_inj | by apply IH].
Qed.

Lemma add_ring_range (xs ys : list float) (n k : nat) (poly poly' : Polygon) :
  for_fold
    (λ poly i, xi ← py_index xs i; yi ← py_index ys i;
               Ok (addPoint poly (mkPoint xi yi)))
    (Z.of_nat <$> seq k n) poly = Ok poly' →
  points poly' = points poly ++ take n (drop k (zip_with mkPoint xs ys)).
Proof.
  revert k poly. induction n as [|n IH]; intros k poly; simpl.
  - intros [= <-]. by rewrite take_0, app_nil_r.
  - intros Hf. ok_step Hf. ok_step Hok. ok_step Hok. ok_step Hok. subst a.
    apply py_index_nat in Hok0, Hok1.
    apply IH in Hf. rewrite Hf. simpl. rewrite <- app_assoc. f_equal. simpl.
    assert (zip_with mkPoint xs ys !! k = Some (mkPoint a0 a1)) as Hz.
    { rewrite lookup_zip_with, Hok0. simpl. by rewrite Hok1. }
    by rewrite (drop_S _ _ _ Hz).
Qed.

Lemma add_ring_Ok (xy : list float * list float) (poly poly' : Polygon) :
  add_ring xy poly = Ok poly' →
  points poly' = points poly ++ ring_points xy.
Proof.
  destruct xy as [xs ys]. unfold add_ring, py_range, ring_points. simpl.
  intros Hf. apply add_ring_range in Hf. rewrite Hf, drop_0.
  do 2 f_equal. lia.
Qed.

Lemma add_ring_new (g : Geometry) (xy : list float * list float) (h : Polygon) :
  exterior_xy g = Ok xy → add_ring xy Polygon_new = Ok h → is_ring_of g h.
Proof. intros Hx Hr. exists xy. split; [done|]. by apply add_ring_Ok in Hr. Qed.

Lemma add_minihole_Ok (geoms : list Geometry) (polygon polygon' : PolygonWithHoles) :
  for_fold
    (λ polygon minihole,
       xy ← exterior_xy minihole;
       polygon_to_pack_hole ← add_ring xy Polygon_new;
       Ok (addHole polygon polygon_to_pack_hole))
    geoms polygon = Ok polygon' →
  boundary polygon' = boundary polygon ∧
  ∃ rings, Forall2 is_ring_of geoms rings ∧ holes polygon' = holes polygon ++ rings.
Proof.
  revert polygon. induction geoms as [|g geoms IH]; intros polygon; simpl.
  - intros [= <-]. split; [done|]. exists []. by rewrite app_nil_r.
  - intros Hf. ok_step Hf. ok_step Hok. ok_step Hok. ok_step Hok. subst a.
    apply IH in Hf as (Hb & rings & Hrings & Hh). simpl in *.
    split; [done|]. exists (a1 :: rings). split.
    + constructor; [by eapply add_ring_new | done].
    + by rewrite Hh, <- app_assoc.
Qed.

Lemma add_hole_Ok (polygon polygon' : PolygonWithHoles) (hole : Geometry) :
  add_hole polygon hole = Ok polygon' →
  boundary polygon' = boundary polygon ∧
  ∃ rings, Forall2 is_ring_of (components hole) rings ∧
           holes polygon' = holes polygon ++ rings.
Proof.
  unfold add_hole, components. destruct (is_empty hole); simpl.
  - intros [= <-]. split; [done|]. exists []. by rewrite app_nil_r.
  - destruct (multi_geoms hole) as [geoms|].
    + apply add_minihole_Ok.
    + intros Hf. ok_step Hf. ok_step Hf. ok_step Hf. subst polygon'. simpl.
      split; [done|]. exists [a0]. split; [|done].
      constructor; [by eapply add_ring_new | constructor].
Qed.

Lemma add_holes_Ok (hs : list Geometry) (polygon polygon' : PolygonWithHoles) :
  for_fold add_hole hs polygon = Ok polygon' →
  boundary polygon' = boundary polygon ∧
  ∃ rings, Forall2 is_ring_of (hs ≫= components) rings ∧
           holes polygon' = holes polygon ++ rings.
Proof.
  revert polygon. induction hs as [|g hs IH]; intros polygon; simpl.
  - intros [= <-]. split; [done|]. exists []. by rewrite app_nil_r.
  - intros Hf. ok_step Hf.
    apply add_hole_Ok in Hok as (Hb1 & r1 & Hr1 & Hh1).
    apply IH in Hf as (Hb2 & r2 & Hr2 & Hh2).
    split; [congruence|]. exists (r1 ++ r2). split.
    + by apply Forall2_app.
    + by rewrite Hh2, Hh1, <- app_assoc.
Qed.

(** One polygon handed to the packer: its boundary is the exterior ring of
    the shapely boundary buffered by [offset]; its holes are the exterior
    rings of the components of the shapely holes, as they are. *)
Lemma to_pack_polygon_Ok (offset : float) (b : Geometry) (hs : list Geometry)
    (poly : PolygonWithHoles) :
  to_pack_polygon offset (b, hs) = Ok poly →
  is_ring_of (buffer b offset 2 2 5%float) (boundary poly) ∧
  Forall2 is_ring_of (hs ≫= components) (holes poly).
Proof.
  unfold to_pack_polygon. intros Hf. ok_step Hf. ok_step Hf.
  apply add_holes_Ok in Hf as (Hb & rings & Hrings & Hh). simpl in *.
  split.
  - rewrite Hb. by eapply add_ring_new.
  - by rewrite Hh.
Qed.

Lemma extract_polygons_Ok (doc : Document) (tolerance offset : float)
    (els : list Element) (polys : list PolygonWithHoles) :
  extract_polygons doc tolerance offset = Ok (els, polys) →
  ∃ sps, extract_shapely_polygons doc tolerance = Ok (els, sps) ∧
         Forall2 (λ sp poly, to_pack_polygon offset sp = Ok poly) sps polys.
Proof.
  unfold extract_polygons. intros Hf. ok_step Hf.
  destruct a as [els' sps]. ok_step Hf. ok_step Hf. injection Hf as <- <-.
  exists sps. split; [done|]. by apply for_each_Ok.
Qed.

End PolygonFacts.

(** ** The output loop and the sanity checks of [pack] *)

Lemma size_list_to_set_le (l : list Z) :
  (size (list_to_set l : gset Z) ≤ length l)%nat.
Proof.
  induction l as [|z l IH]; simpl.
  - done.
  - rewrite size_union_alt, size_singleton.
    assert (size (list_to_set l ∖ {[z]} : gset Z) ≤ size (list_to_set l : gset Z))%nat
      as Hle.
    { apply subseteq_size. intros x [Hx _]%elem_of_difference. exact Hx. }
    lia.
Qed.

(** [len(l) == len(set(l))] says that [l] has no duplicates. *)
Lemma size_list_to_set_NoDup (l : list Z) :
  size (list_to_set l : gset Z) = length l ↔ NoDup l.
Proof.
  split; [|apply size_list_to_set].
  induction l as [|z l IH]; simpl; intros Hs; [constructor|].
  destruct (decide (z ∈ l)) as [Hin|Hnin].
  - assert ({[z]} ∪ list_to_set l = (list_to_set l : gset Z)) as Heq.
    { apply subseteq_union_1_L, singleton_subseteq_l, elem_of_list_to_set, Hin. }
    rewrite Heq in Hs. pose proof (size_list_to_set_le l). lia.
  - constructor; [done|]. apply IH.
    rewrite size_union in Hs
      by (apply disjoint_singleton_l; by rewrite elem_of_list_to_set).
    rewrite size_singleton in Hs. lia.
Qed.

Section PackFacts.
Context `{svgelements : !SvgElements, shapely : !Shapely, native : !Native}.

Lemma place_shapes_Ok elements polygons (placements : list Placement)
    (shapes shapes' : list PlacedShape) (sp sp' : list Z) :
  for_fold (place_shape elements polygons) placements (shapes, sp)
    = Ok (shapes', sp') →
  sp' = sp ++ (polygon_id <$> placements) ∧
  ∃ new, shapes' = shapes ++ new ∧
         Forall2 (shape_of_placement elements polygons) placements new.
Proof.
  revert shapes sp. induction placements as [|pl pls IH]; intros shapes sp.
  - intros [= <- <-]. split; [by rewrite app_nil_r|].
    exists []. by rewrite app_nil_r.
  - rewrite for_fold_cons. intros Hf. ok_step Hf. destruct a as [shapes1 sp1].
    unfold place_shape in Hok. ok_step Hok. ok_step Hok. ok_step Hok.
    injection Hok as <- <-.
    apply IH in Hf as (-> & new & -> & Hnew).
    split; [by rewrite <- app_assoc|].
    eexists (_ :: new). split; [by rewrite <- app_assoc|].
    constructor; [|done]. by exists a, a0, a1.
Qed.

Lemma emit_sheets_Ok sheet_svgs elements polygons
    (l : list (Z * list Placement))
    (outputs outputs' : list (Z * OutputDoc)) (sp sp' : list Z) :
  for_fold (emit_sheet sheet_svgs elements polygons) l (outputs, sp)
    = Ok (outputs', sp') →
  sp' = sp ++ (polygon_id <$> concat l.*2) ∧
  ∃ new, outputs' = outputs ++ new ∧
         Forall2 (output_of_sheet sheet_svgs elements polygons) l new.
Proof.
  revert outputs sp. induction l as [|[i pls] l IH]; intros outputs sp.
  - intros [= <- <-]. split; [by rewrite app_nil_r|].
    exists []. by rewrite app_nil_r.
  - rewrite for_fold_cons. intros Hf. ok_step Hf. destruct a as [outputs1 sp1].
    unfold emit_sheet in Hok. ok_step Hok. ok_step Hok. destruct a0 as [shapes sp2].
    injection Hok as <- <-.
    apply place_shapes_Ok in Hok1 as (-> & new & Hshapes & Hnew).
    simpl in Hshapes. subst shapes.
    apply IH in Hf as (-> & outs & -> & Houts).
    split; [simpl; by rewrite fmap_app, app_assoc|].
    eexists (_ :: outs). split; [by rewrite <- app_assoc|].
    constructor; [|done].
    split; [done|]. split; [by exists a | done].
Qed.

(** Where [emit] returns: the placed ids are those of the packing output in
    order, and there is one document per entry of the packing output. *)
Lemma emit_Ok sheet_svgs elements polygons (packing_output : list (list Placement))
    (outputs : list (Z * OutputDoc)) (successfully_placed : list Z) :
  emit sheet_svgs elements polygons packing_output
    = Ok (outputs, successfully_placed) →
  successfully_placed = polygon_id <$> concat packing_output ∧
  Forall2 (output_of_sheet sheet_svgs elements polygons)
    (zip (py_range (Z.of_nat (length packing_output))) packing_output) outputs.
Proof.
  unfold emit. intros Hf.
  apply emit_sheets_Ok in Hf as (-> & new & -> & Hnew). simpl.
  split; [|done].
  rewrite snd_zip; [done|].
  unfold py_range. rewrite length_fmap, length_seq. lia.
Qed.

Lemma finish_Ok sheet_svgs elements polygons partial_solution packing_output
    (outputs : list (Z * OutputDoc)) (placed failed : Z) :
  finish sheet_svgs elements polygons partial_solution packing_output
    = Ok (outputs, placed, failed) →
  ∃ successfully_placed,
    emit sheet_svgs elements polygons packing_output
      = Ok (outputs, successfully_placed) ∧
    placed = Z.of_nat (length successfully_placed) ∧
    NoDup successfully_placed ∧
    placed ≤ Z.of_nat (length polygons) ∧
    failed = Z.of_nat (length polygons) - placed ∧
    (partial_solution = false →
     placed = 0 ∨ placed = Z.of_nat (length polygons)).
Proof.
  unfold finish. intros Hf. ok_step Hf. destruct a as [outs sp].
  ok_step Hf. ok_step Hf. ok_step Hf. ok_step Hok0. ok_step Hok1.
  injection Hf as <- <- <-.
  exists sp. split; [done|]. split; [done|]. split.
  { apply size_list_to_set_NoDup. lia. }
  split; [lia|]. split; [done|].
  intros ->. simpl in Hok2. ok_step Hok2. lia.
Qed.

Lemma pack_on_Ok sheet_svgs shapes offset tolerance partial_solution rotations
    (state state' : State) (r : list (Z * OutputDoc) * Z * Z) :
  pack_on sheet_svgs shapes offset tolerance partial_solution rotations state
    = (Ok r, state') →
  ∃ elements polygons sheets state1 packing_output,
    extract_polygons shapes tolerance offset = Ok (elements, polygons) ∧
    length elements = length polygons ∧
    build_sheets tolerance offset sheet_svgs state = (Ok sheets, state1) ∧
    pack_decreasing sheets polygons state1 partial_solution rotations
      = (packing_output, state') ∧
    finish sheet_svgs elements polygons partial_solution packing_output = Ok r.
Proof.
  unfold pack_on. intros Hf.
  destruct (extract_polygons shapes tolerance offset) as [[els polys]|e];
    [|discriminate].
  destruct (py_assert _) as [[]|e] eqn:Hassert; [|discriminate].
  ok_step Hassert. apply Nat.eqb_eq in Hassert.
  destruct (build_sheets _ _ _ _) as [[sheets|e] st1] eqn:Hsheets; [|discriminate].
  destruct (pack_decreasing _ _ _ _ _) as [po st2] eqn:Hpo.
  injection Hf as Hfin <-.
  by exists els, polys, sheets, st1, po.
Qed.

Lemma pack_Ok sheet_svgs shapes offset tolerance partial_solution rotations
    persist custom_state (store store' : Store)
    (r : list (Z * OutputDoc) * Z * Z) :
  pack sheet_svgs shapes offset tolerance partial_solution rotations
    persist custom_state store = (Ok r, store') →
  ∃ state',
    pack_on sheet_svgs shapes offset tolerance partial_solution rotations
      (read_state store (select_state persist custom_state)) = (Ok r, state') ∧
    store' = write_state store (select_state persist custom_state) state'.
Proof.
  unfold pack. destruct (pack_on _ _ _ _ _ _ _) as [res st] eqn:Hon.
  intros [= -> <-]. by exists st.
Qed.

(** The three ways [pack] selects its [State]. *)
Lemma pack_custom sheet_svgs shapes offset tolerance partial_solution rotations
    (l : nat) (store : Store) :
  pack sheet_svgs shapes offset tolerance partial_solution rotations
    true (Some l) store
  = ((pack_on sheet_svgs shapes offset tolerance partial_solution rotations
        (user_states store l)).1,
     {| persistent_state := persistent_state store;
        user_states :=
          <[l := (pack_on sheet_svgs shapes offset tolerance partial_solution
                    rotations (user_states store l)).2]> (user_states store) |}).
Proof. unfold pack. simpl. by destruct (pack_on _ _ _ _ _ _ _). Qed.

Lemma pack_persistent sheet_svgs shapes offset tolerance partial_solution rotations
    (store : Store) :
  pack sheet_svgs shapes offset tolerance partial_solution rotations
    true None store
  = ((pack_on sheet_svgs shapes offset tolerance partial_solution rotations
        (persistent_state store)).1,
     {| persistent_state :=
          (pack_on sheet_svgs shapes offset tolerance partial_solution rotations
             (persistent_state store)).2;
        user_states := user_states store |}).
Proof. unfold pack. simpl. by destruct (pack_on _ _ _ _ _ _ _). Qed.

Lemma pack_fresh sheet_svgs shapes offset tolerance partial_solution rotations
    (custom_state : option nat) (store : Store) :
  pack sheet_svgs shapes offset tolerance partial_solution rotations
    false custom_state store
  = ((pack_on sheet_svgs shapes offset tolerance partial_solution rotations
        State_new).1, store).
Proof.
  unfold pack. destruct custom_state; simpl; by destruct (pack_on _ _ _ _ _ _ _).
Qed.

End PackFacts.

(** ** Retained elements and their outlines *)

Section Retained.
Context `{svgelements : !SvgElements, shapely : !Shapely}.

Lemma retained_true (tolerance : float) (e : Element) :
  retained tolerance e = true ↔
  is_hidden e = Ok false ∧ nonempty_closed tolerance e.
Proof.
  unfold retained, nonempty_closed, ends_within, is_closed, get_boundary.
  destruct (is_hidden e) as [[|]|err].
  - split; [discriminate | intros [[=] _]].
  - destruct (element_path e) as [p|].
    + rewrite andb_true_iff, negb_true_iff, Nat.eqb_neq. split.
      * intros [Hlen Hc]. split; [done|]. by exists p.
      * intros [_ (q & [= <-] & Hlen & Hc)]. done.
    + split; [discriminate | intros [_ (q & [=] & _)]].
  - split; [discriminate | intros [[=] _]].
Qed.

Lemma gather_retained (tolerance : float) (e : Element)
    (g : option (Element * Path)) :
  gather tolerance e = Ok g →
  g = if retained tolerance e then (λ p, (e, p)) <$> element_path e else None.
Proof.
  unfold gather, retained, element_path.
  destruct (is_hidden e) as [[|]|err]; simpl; [by intros [= <-] | | done].
  destruct (el_class e) as [p|p|]; simpl.
  1,2: destruct (negb _ && _); by intros [= <-].
  by intros [= <-].
Qed.

Lemma gathered_retained (tolerance : float) (l : list Element)
    (gathered : list (option (Element * Path))) :
  Forall2 (λ e g, gather tolerance e = Ok g) l gathered →
  (omap id gathered).*1 = List.filter (retained tolerance) l ∧
  (omap id gathered).*2 =
    omap (λ e, if retained tolerance e then element_path e else None) l.
Proof.
  induction 1 as [|e g l gathered Hg _ [IH1 IH2]]; simpl; [done|].
  apply gather_retained in Hg. subst g.
  destruct (retained tolerance e) eqn:Hr; simpl; [|done].
  apply retained_true in Hr as [_ (p & Hp & _)]. rewrite Hp. simpl.
  split; f_equal; [exact IH1 | exact IH2].
Qed.

(** The ingested elements are the retained elements of the document, in
    order, and each polygon is the outline of the corresponding path. *)
Lemma extract_shapely_polygons_retained (doc : Document) (tolerance : float)
    (els : list Element) (sps : list (Geometry * list Geometry)) :
  extract_shapely_polygons doc tolerance = Ok (els, sps) →
  els = List.filter (retained tolerance) (doc_elements doc) ∧
  Forall2 (λ p sp, outline tolerance p = Ok sp) (retained_paths tolerance doc) sps.
Proof.
  intros (gathered & Hg & -> & Hout)%extract_shapely_polygons_Ok.
  apply gathered_retained in Hg as [H1 H2].
  split; [done|]. unfold retained_paths. by rewrite <- H2.
Qed.

Lemma outline_Ok (tolerance : float) (p : Path) (b : Geometry) (hs : list Geometry) :
  outline tolerance p = Ok (b, hs) →
  conservative_boundary tolerance p b ∧
  Forall2 (conservative_hole tolerance)
    (List.filter (λ q, is_closed q tolerance) (tail (path_as_subpaths p))) hs.
Proof.
  unfold outline. intros Hf. ok_step Hf. ok_step Hf. injection Hf as <- <-.
  split; [by exists a|].
  apply for_each_Ok in Hok0.
  revert Hok0. apply Forall2_impl.
  intros q h Hq. ok_step Hq. injection Hq as <-. by exists a1.
Qed.

End Retained.

(** ** The claims about ingest *)

Section IngestClaims.
Context `{svgelements : !SvgElements, shapely : !Shapely}.

(** C10: the hidden test holds of an element exactly when it carries an
    attribute named [hidden] and its [visibility] attribute equals [hidden];
    an element of which it holds is left out of the elements handed on; an
    element that is a non-empty closed path is left out exactly when the
    test holds of it; so an element whose [visibility] is [hidden] but which
    has no attribute named [hidden] is ingested like any other: when it is a
    non-empty closed path, it is among the elements handed to the packer. *)
Theorem hidden_needs_attribute_named_hidden (doc : Document) (tolerance : float)
    (els : list Element) (sps : list (Geometry * list Geometry)) (e : Element) :
  extract_shapely_polygons doc tolerance = Ok (els, sps) →
  e ∈ doc_elements doc →
  (is_hidden e = Ok true ↔ marked_hidden e) ∧
  (marked_hidden e → e ∉ els) ∧
  (nonempty_closed tolerance e → (e ∉ els ↔ marked_hidden e)) ∧
  (el_values e !! "hidden"%string = None →
   el_values e !! "visibility"%string = Some "hidden"%string →
   nonempty_closed tolerance e →
   e ∈ els).
Proof.
  intros Hex Hin.
  pose proof (extract_elements_iff _ _ _ _ e Hex) as Hiff.
  assert (marked_hidden e → e ∉ els) as Hskip.
  { intros Hm%is_hidden_true Hels. apply Hiff in Hels as (_ & Hh & _). congruence. }
  assert (∃ b, is_hidden e = Ok b) as [b Hb].
  { destruct (extract_shapely_polygons_Ok _ _ _ _ Hex) as (gathered & Hg & _).
    apply list_elem_of_lookup in Hin as (i & Hi).
    destruct (Forall2_lookup_l _ _ _ _ _ Hg Hi) as (g & _ & Hgather).
    unfold gather in Hgather.
    destruct (is_hidden e) as [b|err]; [by exists b | discriminate]. }
  split; [apply is_hidden_true|]. split; [exact Hskip|]. split.
  - intros Hclosed. split; [|exact Hskip].
    intros Hout. apply is_hidden_true. destruct b; [done|].
    exfalso. apply Hout, Hiff. done.
  - intros Hno _ Hclosed. apply Hiff.
    split; [done|]. split; [|done].
    apply is_hidden_false. by left.
Qed.

(** C8, as the code has it: an element of the document is retained exactly
    when the hidden test lets it through and it is a non-empty path (or a
    shape converted to a path) whose first subpath starts and ends less than
    [tolerance] apart; the retained elements keep the document order, and
    each has one polygon. *)
Theorem retained_iff_visible_nonempty_closed (doc : Document) (tolerance : float)
    (els : list Element) (sps : list (Geometry * list Geometry)) :
  extract_shapely_polygons doc tolerance = Ok (els, sps) →
  els = List.filter (retained tolerance) (doc_elements doc) ∧
  length sps = length els ∧
  ∀ e, e ∈ doc_elements doc →
       (e ∈ els ↔ is_hidden e = Ok false ∧ nonempty_closed tolerance e).
Proof.
  intros Hex. split; [by apply extract_shapely_polygons_retained in Hex as [? _]|].
  split.
  - unfold extract_shapely_polygons in Hex.
    ok_step Hex. ok_step Hex. ok_step Hex. ok_step Hex. ok_step Hok2.
    injection Hex as <- <-. symmetry. by apply Nat.eqb_eq.
  - intros e Hin. rewrite (extract_elements_iff _ _ _ _ e Hex).
    split; [intros (_ & Hh & Hc) | intros [Hh Hc]]; done.
Qed.

(** C4: the boundary of every polygon handed to the packer is the exterior
    ring of what [shapely]'s [buffer] makes of the conservative boundary for
    the distance [offset] (square caps, mitre joins, mitre limit 5); its
    holes are the exterior rings of the conservative holes as they are, with
    no buffer, so [offset] does not reach them: another [offset] gives the
    same holes. *)
Theorem offset_dilates_boundary_only (doc : Document) (tolerance offset : float)
    (els : list Element) (polys : list PolygonWithHoles) :
  extract_polygons doc tolerance offset = Ok (els, polys) →
  ∃ sps,
    extract_shapely_polygons doc tolerance = Ok (els, sps) ∧
    Forall2
      (λ sp poly,
         is_ring_of (buffer sp.1 offset 2 2 5%float) (boundary poly) ∧
         Forall2 is_ring_of (sp.2 ≫= components) (holes poly))
      sps polys ∧
    ∀ offset' els' polys',
      extract_polygons doc tolerance offset' = Ok (els', polys') →
      holes <$> polys' = holes <$> polys.
Proof.
  intros (sps & Hex & Hpolys)%extract_polygons_Ok.
  assert (∀ off ps,
    Forall2 (λ sp poly, to_pack_polygon off sp = Ok poly) sps ps →
    Forall2 (λ sp poly,
       is_ring_of (buffer sp.1 off 2 2 5%float) (boundary poly) ∧
       Forall2 is_ring_of (sp.2 ≫= components) (holes poly)) sps ps) as Hrings.
  { intros off ps. apply Forall2_impl. intros [b hs] poly Hp.
    by apply to_pack_polygon_Ok in Hp. }
  exists sps. split; [done|]. split; [by apply Hrings|].
  intros offset' els' polys' (sps' & Hex' & Hpolys')%extract_polygons_Ok.
  rewrite Hex in Hex'. injection Hex' as <- <-.
  apply Hrings in Hpolys, Hpolys'. clear Hrings Hex.
  revert polys' Hpolys'.
  induction Hpolys as [|sp poly sps polys [_ Hh] _ IH];
    intros polys' Hpolys'; inversion Hpolys' as [|? poly' ? ps' [_ Hh'] Hrest];
    subst; simpl; [done|].
  f_equal; [|by apply IH].
  by eapply Forall2_is_ring_of_inj.
Qed.

End IngestClaims.

(** ** The claims about [pack] *)

Section PackClaims.
Context `{svgelements : !SvgElements, shapely : !Shapely, native : !Native}.


(** C7: where [pack] returns, the two counts add up to the number of elements
    retained from the shapes document (hidden, open and empty ones are not
    among them), no count is negative, the documents returned are written
    from the placements of the packing algorithm, one document per sheet it
    reports, and no polygon id occurs twice among those placements. *)
Theorem pack_accounting sheet_svgs shapes offset tolerance partial_solution
    rotations persist custom_state (store store' : Store)
    (outputs : list (Z * OutputDoc)) (placed failed : Z) :
  pack sheet_svgs shapes offset tolerance partial_solution rotations persist
    custom_state store = (Ok (outputs, placed, failed), store') →
  placed + failed =
    Z.of_nat (length (List.filter (retained tolerance) (doc_elements shapes))) ∧
  0 ≤ placed ∧ 0 ≤ failed ∧
  ∃ elements polygons sheets state state' packing_output,
    extract_polygons shapes tolerance offset = Ok (elements, polygons) ∧
    pack_decreasing sheets polygons state partial_solution rotations
      = (packing_output, state') ∧
    Forall2 (output_of_sheet sheet_svgs elements polygons)
      (zip (py_range (Z.of_nat (length packing_output))) packing_output)
      outputs ∧
    placed = Z.of_nat (length (concat packing_output)) ∧
    NoDup (polygon_id <$> concat packing_output).
Proof.
  intros (state' & Hon & _)%pack_Ok.
  apply pack_on_Ok in Hon
    as (elements & polygons & sheets & state1 & po & Hex & Hlen & _ & Hpo & Hfin).
  apply finish_Ok in Hfin as (sp & Hemit & Hplaced & Hnodup & Hle & Hfailed & _).
  apply emit_Ok in Hemit as (Hsp & Houts).
  destruct (extract_polygons_Ok _ _ _ _ _ Hex) as (sps & Hsps & _).
  apply extract_shapely_polygons_retained in Hsps as [Hels _].
  rewrite <- Hels, Hlen.
  split; [lia|]. split; [lia|]. split; [lia|].
  exists elements, polygons, sheets, state1, state', po.
  split; [done|]. split; [done|]. split; [done|].
  split; [by rewrite Hplaced, Hsp, length_fmap | by rewrite <- Hsp].
Qed.


(** C6, as the code has it: with [persist] true, [pack] works on the
    [custom_state] object when one is given and on the module's
    [persistent_state] otherwise, and leaves what the native code did in that
    object; with [persist] false it works on a fresh [State()] whatever
    [custom_state] is, and no [State] object of the caller or of the module
    changes. *)
Theorem pack_state_selection sheet_svgs shapes offset tolerance partial_solution
    rotations (store : Store) :
  let run := pack_on sheet_svgs shapes offset tolerance partial_solution rotations in
  (∀ l,
     pack sheet_svgs shapes offset tolerance partial_solution rotations
       true (Some l) store
     = ((run (user_states store l)).1,
        {| persistent_state := persistent_state store;
           user_states := <[l := (run (user_states store l)).2]> (user_states store) |})) ∧
  pack sheet_svgs shapes offset tolerance partial_solution rotations
    true None store
  = ((run (persistent_state store)).1,
     {| persistent_state := (run (persistent_state store)).2;
        user_states := user_states store |}) ∧
  (∀ custom_state,
     pack sheet_svgs shapes offset tolerance partial_solution rotations
       false custom_state store
     = ((run State_new).1, store)).
Proof.
  intros run. split; [|split].
  - intros l. apply pack_custom.
  - apply pack_persistent.
  - intros custom_state. apply pack_fresh.
Qed.

End PackClaims.

(** ** The NFP cache does not change what the engine returns *)

Section CacheFacts.
Context `{backend : !NfpBackend}.

Lemma cache_sound_empty : cache_sound empty_cache.
Proof.
  intros A B r rings Hl. unfold empty_cache in Hl. by rewrite lookup_empty in Hl.
Qed.

Lemma pure_of_ret {A} (a : A) : pure_of (cached_ret a) a.
Proof. intros st Hst. done. Qed.

Lemma pure_of_bind {A B} (m : Cached A) (f : A → Cached B) (a : A) (b : B) :
  pure_of m a → pure_of (f a) b → pure_of (cached_bind m f) b.
Proof.
  intros Hm Hf st Hst. unfold cached_bind.
  destruct (Hm st Hst) as [Ha Hst']. destruct (m st) as [a' st']. simpl in *.
  subst a'. by apply Hf.
Qed.

Lemma pure_of_fold {A S} (f : S → A → Cached S) (g : S → A → S) (l : list A) (s : S) :
  (∀ s a, pure_of (f s a) (g s a)) → pure_of (cached_fold f l s) (foldl g s l).
Proof.
  intros Hf. revert s. induction l as [|a l IH]; intros s; simpl.
  - apply pure_of_ret.
  - eapply pure_of_bind; [apply Hf | apply IH].
Qed.

Section Canonical.
Hypothesis canonical : canonical_fingerprint.

(** A hit returns what a miss computes, and a miss leaves a sound cache:
    the entry it inserts is the NFP of every pair of polygons that has the
    fingerprints of its key. *)
Lemma pure_of_nfp (A B : PolygonWithHoles) (r : Z * Z) :
  pure_of (nfp A B r) (compute_nfp A B r).
Proof.
  intros st Hst. unfold nfp.
  destruct (st !! (fingerprint A, fingerprint B, r)) as [rings|] eqn:Hl; simpl.
  - split; [by apply Hst | done].
  - split; [done|]. intros A' B' r' rings.
    destruct (decide ((fingerprint A, fingerprint B, r)
                      = (fingerprint A', fingerprint B', r'))) as [Heq|Hne].
    + rewrite <- Heq, lookup_insert_eq. intros [= <-].
      injection Heq as HA HB <-. by apply canonical.
    + rewrite lookup_insert_ne by done. apply Hst.
Qed.

Lemma pure_of_nfp_at (A B : PolygonWithHoles) (r : Z * Z) :
  pure_of (nfp_at A B r) (nfp_at_pure A B r).
Proof.
  eapply pure_of_bind; [apply pure_of_nfp | apply pure_of_ret].
Qed.

Lemma pure_of_feasible (sheet : SheetModel) (B : PolygonWithHoles) (r : Z * Z) :
  pure_of (feasible sheet B r) (feasible_pure sheet B r).
Proof.
  apply pure_of_fold. intros F A.
  eapply pure_of_bind; [apply pure_of_nfp_at | apply pure_of_ret].
Qed.

Lemma pure_of_best_placement (sheets : list SheetModel) (B : PolygonWithHoles)
    (rotations : Z) :
  pure_of (best_placement sheets B rotations) (best_placement_pure sheets B rotations).
Proof.
  apply pure_of_fold. intros best [i sheet].
  apply pure_of_fold. intros best' k.
  eapply pure_of_bind; [apply pure_of_feasible | apply pure_of_ret].
Qed.

Lemma transparent_place_all (partial_solution : bool) (rotations : Z)
    (parts : list (Z * PolygonWithHoles)) (sheets : list SheetModel)
    (placed : list (list Placement)) :
  transparent (place_all partial_solution rotations parts sheets placed).
Proof.
  revert sheets placed. induction parts as [|[id B] rest IH]; intros sheets placed.
  - eexists. apply pure_of_ret.
  - simpl.
    destruct (best_placement_pure sheets B rotations) as [[[i k] t]|] eqn:Hbest.
    + destruct (IH (alter (add_obstacle (pose B (k, rotations) t)) i sheets)
                   (alter (λ ps, ps ++ [mkPlacement id (mkTransform t (angle k rotations))])
                      i placed)) as [a Ha].
      exists a. eapply pure_of_bind; [apply pure_of_best_placement|].
      by rewrite Hbest.
    + destruct partial_solution.
      * destruct (IH sheets placed) as [a Ha].
        exists a. eapply pure_of_bind; [apply pure_of_best_placement|].
        by rewrite Hbest.
      * exists None. eapply pure_of_bind; [apply pure_of_best_placement|].
        rewrite Hbest. apply pure_of_ret.
Qed.

(** The driver returns the same placements from every sound cache, and
    leaves a sound cache. *)
Lemma pack_decreasing_model_sound (sheets : list SheetModel)
    (polygons : list PolygonWithHoles) (partial_solution : bool) (rotations : Z)
    (st : Cache) :
  cache_sound st →
  (pack_decreasing_model sheets polygons st partial_solution rotations).1
    = (pack_decreasing_model sheets polygons empty_cache partial_solution
         rotations).1 ∧
  cache_sound (pack_decreasing_model sheets polygons st partial_solution rotations).2.
Proof.
  intros Hst. unfold pack_decreasing_model.
  destruct (transparent_place_all partial_solution rotations
              (sort_parts (imap (λ i B, (Z.of_nat i, B)) polygons)) sheets
              (replicate (length sheets) [])) as [a Ha].
  destruct (Ha st Hst) as [H1 H2].
  destruct (Ha empty_cache cache_sound_empty) as [H3 _].
  destruct (place_all _ _ _ _ _ st) as [res st'].
  destruct (place_all _ _ _ _ _ empty_cache) as [res0 st0].
  simpl in *. split; [congruence | done].
Qed.

End Canonical.
End CacheFacts.

(** ** [pack] on the modelled native extension *)

Section ModelFacts.
Context `{svgelements : !SvgElements, shapely : !Shapely, backend : !NfpBackend}.
#[local] Existing Instance native_model.

(** Building the sheets does not touch the cache. *)
Lemma build_sheets_model (tolerance offset : float) (sheet_svgs : list Document)
    (st st' : Cache) :
  build_sheets tolerance offset sheet_svgs st
  = ((build_sheets tolerance offset sheet_svgs st').1, st).
Proof.
  induction sheet_svgs as [|doc docs IH]; simpl; [done|].
  unfold build_sheet.
  destruct (extract_polygons doc tolerance offset) as [[els polys]|e]; [|done].
  destruct (get_sheet_dimensions doc) as [[h w]|e]; [|done].
  simpl. rewrite IH.
  destruct (@build_sheets _ _ native_model tolerance offset docs st')
    as [[sheets|e] st0]; reflexivity.
Qed.

Section Canonical.
Hypothesis canonical : canonical_fingerprint.

Lemma pack_on_model_sound (sheet_svgs : list Document) (shapes : Document)
    (offset tolerance : float) (partial_solution : bool) (rotations : Z)
    (st : Cache) :
  cache_sound st →
  (pack_on sheet_svgs shapes offset tolerance partial_solution rotations st).1
  = (pack_on sheet_svgs shapes offset tolerance partial_solution rotations
       empty_cache).1 ∧
  cache_sound
    (pack_on sheet_svgs shapes offset tolerance partial_solution rotations st).2.
Proof.
  intros Hst. unfold pack_on.
  destruct (extract_polygons shapes tolerance offset) as [[els polys]|e]; [|done].
  destruct (py_assert _) as [[]|e]; [|done].
  rewrite (build_sheets_model _ _ _ st empty_cache).
  rewrite (build_sheets_model _ _ _ empty_cache empty_cache).
  destruct (@build_sheets _ _ native_model tolerance offset sheet_svgs empty_cache)
    as [[sheets|e] st0]; simpl; [|done].
  destruct (pack_decreasing_model_sound canonical sheets polys partial_solution
              rotations st Hst) as [Hres Hsound].
  destruct (pack_decreasing_model sheets polys st _ _) as [po st1].
  destruct (pack_decreasing_model sheets polys empty_cache _ _) as [po0 st2].
  simpl in *. by subst po0.
Qed.

Lemma warmed_sound (st : Cache) : warmed st → cache_sound st.
Proof.
  induction 1 as [|? ? ? ? ? ? st _ IH]; [apply cache_sound_empty|].
  by apply pack_on_model_sound.
Qed.


End Canonical.
End ModelFacts.

(** * Further properties of [packaide.py] and of the validator *)

(** ** More on the error monad and the loops *)

Lemma bind_Raise {A B} (m : result A) (f : A → result B) (e : exn) :
  m ≫= f = Raise e ↔ m = Raise e ∨ ∃ a, m = Ok a ∧ f a = Raise e.
Proof.
  destruct m as [a|e']; simpl; split.
  - intros Hf. right. by exists a.
  - intros [[=] | (a' & [= <-] & Hf)]. done.
  - intros [= ->]. by left.
  - intros [[= ->] | (a' & [=] & _)]. done.
Qed.

Lemma py_range_length (n : Z) : length (py_range n) = Z.to_nat n.
Proof. unfold py_range. by rewrite length_fmap, length_seq. Qed.

Lemma py_range_lookup (n : Z) (i : nat) :
  (i < Z.to_nat n)%nat → py_range n !! i = Some (Z.of_nat i).
Proof.
  intros Hi. unfold py_range. rewrite list_lookup_fmap, lookup_seq_lt by done. done.
Qed.

(** ** Sampling a path *)

Section SamplingFacts.
Context `{svgelements : !SvgElements, shapely : !Shapely}.

(** The exceptions a division and a ceiling can raise. *)
Lemma discretize_path_Raise (path : Path) (spacing : float) (e : exn) :
  discretize_path path spacing = Raise e ↔
  match e with
  | ZeroDivisionError => (spacing =? 0)%float = true
  | OverflowError =>
      (spacing =? 0)%float = false ∧
      ∃ s, Prim2SF (path_length path / spacing) = S754_infinity s
  | ValueError =>
      (spacing =? 0)%float = false ∧
      Prim2SF (path_length path / spacing) = S754_nan
  | _ => False
  end.
Proof.
  unfold discretize_path, py_div, py_ceil.
  destruct (spacing =? 0)%float; simpl;
    [|destruct (Prim2SF (path_length path / spacing)) as [s|s| |s m x]; simpl];
    destruct e; split; intros H;
    first [ discriminate H | contradiction | done
          | by (apply proj1 in H; discriminate H)
          | by (apply proj2 in H; discriminate H)
          | by (apply proj2 in H; destruct H as [? H]; discriminate H)
          | by (split; [done | eexists]) ].
Qed.

(** X1: where [discretize_path] returns, the polygon is made of exactly
    [max(3, ceil(length / spacing))] points, so of three at least, and point
    [i] is the point of the path at parameter [i * (1 / n_points)]. *)
Theorem discretize_path_at_least_three_points (path : Path) (spacing : float)
    (g : Geometry) :
  discretize_path path spacing = Ok g →
  ∃ (c : Z) (pts : list (float * float)),
    py_ceil (path_length path / spacing) = Ok c ∧
    g = to_shapely_polygon pts ∧
    Z.of_nat (length pts) = Z.max 3 c ∧
    (3 ≤ length pts)%nat ∧
    ∀ i : nat, (i < length pts)%nat →
      pts !! i =
        Some (path_point path
                (py_float (Z.of_nat i) * (py_float 1 / py_float (Z.max 3 c)))%float).
Proof.
  unfold discretize_path, py_div. intros Hd.
  destruct (spacing =? 0)%float; [discriminate|]. simpl in Hd.
  ok_step Hd. injection Hd as <-. rename a into c.
  eexists c, _. split; [done|]. split; [reflexivity|].
  rewrite length_fmap, py_range_length.
  split; [lia|]. split; [lia|].
  intros i Hi. rewrite list_lookup_fmap, py_range_lookup by done. done.
Qed.

(** X2: [discretize_path] raises before it samples any point:
    [ZeroDivisionError] when the spacing is zero, [OverflowError] when the
    spacing is not zero and [length / spacing] is infinite, [ValueError] when
    the spacing is not zero and [length / spacing] is not a number. *)
Theorem discretize_path_raises (path : Path) (spacing : float) (e : exn) :
  match e with
  | ZeroDivisionError => (spacing =? 0)%float = true
  | OverflowError =>
      (spacing =? 0)%float = false ∧
      ∃ s, Prim2SF (path_length path / spacing) = S754_infinity s
  | ValueError =>
      (spacing =? 0)%float = false ∧
      Prim2SF (path_length path / spacing) = S754_nan
  | _ => False
  end →
  discretize_path path spacing = Raise e.
Proof. apply discretize_path_Raise. Qed.

End SamplingFacts.

(** ** What ingest raises *)

Lemma for_each_Raise {A B} (f : A → result B) (l : list A) (e : exn) :
  for_each f l = Raise e → ∃ a, a ∈ l ∧ f a = Raise e.
Proof.
  induction l as [|a l IH]; simpl; [discriminate|].
  intros [Hf | (b & Hb & Hf)]%bind_Raise.
  - exists a. split; [left | done].
  - apply bind_Raise in Hf as [Hf | (bs & _ & [=])].
    destruct (IH Hf) as (a' & Hin & Ha'). exists a'. split; [by right | done].
Qed.

Lemma for_each_Raise_at {A B} (f : A → result B) (l1 l2 : list A) (a : A) (e : exn) :
  Forall (λ a', ∃ b, f a' = Ok b) l1 → f a = Raise e →
  for_each f (l1 ++ a :: l2) = Raise e.
Proof.
  intros Hl1 Ha. induction Hl1 as [|a' l1 [b Hb] _ IH]; simpl.
  - by rewrite Ha.
  - by rewrite Hb, IH.
Qed.

Lemma py_assert_Raise (c : bool) (e : exn) :
  py_assert c = Raise e ↔ c = false ∧ e = AssertionError.
Proof. destruct c; simpl; split; [done | intros [[=] _] | by intros [= <-] | by intros [_ ->]]. Qed.

Section IngestErrors.
Context `{svgelements : !SvgElements, shapely : !Shapely}.

Lemma get_sheet_dimensions_Ok (doc : Document) (h w : float) :
  get_sheet_dimensions doc = Ok (h, w) ↔ ∃ a b, viewBox doc = [a; b; w; h].
Proof.
  unfold get_sheet_dimensions. split.
  - destruct (viewBox doc) as [|a [|b [|c [|d [|x l]]]]]; try discriminate.
    intros [= <- <-]. by exists a, b.
  - intros (a & b & ->). done.
Qed.

Lemma get_sheet_dimensions_Raise (doc : Document) (e : exn) :
  get_sheet_dimensions doc = Raise e ↔
  e = ValueError ∧ length (viewBox doc) ≠ 4%nat.
Proof.
  unfold get_sheet_dimensions.
  destruct (viewBox doc) as [|a [|b [|c [|d [|x l]]]]]; simpl; split;
    first [ by intros [= <-] | by intros [-> _] | discriminate | intros [_ Hne]; done ].
Qed.

Lemma get_sheet_dimensions_length (doc : Document) :
  length (viewBox doc) = 4%nat → ∃ hw, get_sheet_dimensions doc = Ok hw.
Proof.
  unfold get_sheet_dimensions.
  destruct (viewBox doc) as [|a [|b [|c [|d [|x l]]]]]; try discriminate.
  intros _. by eexists.
Qed.

Lemma is_hidden_Raise (e : Element) (err : exn) :
  is_hidden e = Raise err ↔
  err = KeyError ∧ is_Some (el_values e !! "hidden"%string) ∧
  el_values e !! "visibility"%string = None.
Proof.
  unfold is_hidden, py_in, py_getitem.
  destruct (el_values e !! "hidden"%string) as [h|]; simpl.
  - destruct (el_values e !! "visibility"%string) as [v|]; simpl; split.
    + discriminate.
    + intros (_ & _ & [=]).
    + intros [= <-]. split; [done|]. split; [by eexists | done].
    + by intros (-> & _).
  - split; [discriminate | intros (_ & [? [=]] & _)].
Qed.

Lemma gather_Raise (tolerance : float) (e : Element) (err : exn) :
  gather tolerance e = Raise err ↔ is_hidden e = Raise err.
Proof.
  unfold gather. destruct (is_hidden e) as [[|]|err']; simpl.
  - split; discriminate.
  - destruct (el_class e) as [p|p|]; try destruct (negb _ && _);
      split; discriminate.
  - split; by intros [= ->].
Qed.

Lemma outline_Raise (tolerance : float) (p : Path) (e : exn) :
  outline tolerance p = Raise e →
  e = ZeroDivisionError ∨ e = OverflowError ∨ e = ValueError.
Proof.
  assert (∀ q, discretize_path q tolerance = Raise e →
               e = ZeroDivisionError ∨ e = OverflowError ∨ e = ValueError) as Hd.
  { intros q Hq%discretize_path_Raise.
    destruct e; first [ contradiction | by left | by right; left | by right; right ]. }
  unfold outline. intros [Hf | (d & _ & Hf)]%bind_Raise; [by eapply Hd|].
  apply bind_Raise in Hf as [Hf | (hs & _ & [=])].
  apply for_each_Raise in Hf as (q & _ & Hq).
  apply bind_Raise in Hq as [Hq | (d' & _ & [=])]. by eapply Hd.
Qed.

Lemma extract_shapely_polygons_length (doc : Document) (tolerance : float)
    (els : list Element) (sps : list (Geometry * list Geometry)) :
  extract_shapely_polygons doc tolerance = Ok (els, sps) → length els = length sps.
Proof.
  intros (gathered & _ & -> & Hout)%extract_shapely_polygons_Ok.
  apply Forall2_length in Hout. by rewrite !length_fmap in *.
Qed.

(** What [extract_shapely_polygons] raises: the view box comes first, then
    the hidden tests of all elements, then the sampling of the paths. *)
Lemma extract_shapely_polygons_Raise (doc : Document) (tolerance : float) (e : exn) :
  extract_shapely_polygons doc tolerance = Raise e →
  (e = ValueError ∧ length (viewBox doc) ≠ 4%nat) ∨
  (length (viewBox doc) = 4%nat ∧
   ((∃ el, el ∈ doc_elements doc ∧ is_hidden el = Raise e) ∨
    e = ZeroDivisionError ∨ e = OverflowError ∨ e = ValueError)).
Proof.
  unfold extract_shapely_polygons.
  intros [Hf | (hw & Hdim & Hf)]%bind_Raise.
  { left. by apply get_sheet_dimensions_Raise. }
  right. split.
  { destruct hw as [h w]. apply get_sheet_dimensions_Ok in Hdim as (a & b & ->). done. }
  apply bind_Raise in Hf as [Hf | (gathered & Hg & Hf)].
  { left. apply for_each_Raise in Hf as (el & Hin & Hel).
    exists el. split; [done|]. by apply gather_Raise in Hel. }
  right.
  apply bind_Raise in Hf as [Hf | (sps & Hsps & Hf)].
  { apply for_each_Raise in Hf as (p & _ & Hp). by eapply outline_Raise. }
  apply bind_Raise in Hf as [Hf | (u & _ & [=])].
  apply py_assert_Raise in Hf as [Hlen _].
  apply for_each_Ok, Forall2_length in Hsps.
  rewrite !length_fmap in *. apply Nat.eqb_neq in Hlen. lia.
Qed.

(** X4: a document whose view box does not hold four numbers makes
    [get_sheet_dimensions], [extract_shapely_polygons] and [extract_polygons]
    raise [ValueError], whatever its elements are. *)
Theorem malformed_view_box_raises_ValueError (doc : Document)
    (tolerance offset : float) :
  length (viewBox doc) ≠ 4%nat →
  get_sheet_dimensions doc = Raise ValueError ∧
  extract_shapely_polygons doc tolerance = Raise ValueError ∧
  extract_polygons doc tolerance offset = Raise ValueError.
Proof.
  intros Hlen.
  assert (get_sheet_dimensions doc = Raise ValueError) as Hdim
    by (by apply get_sheet_dimensions_Raise).
  assert (extract_shapely_polygons doc tolerance = Raise ValueError) as Hex
    by (unfold extract_shapely_polygons; by rewrite Hdim).
  split; [done|]. split; [done|].
  unfold extract_polygons. by rewrite Hex.
Qed.

(** X5: when the view box holds four numbers and the body of the first
    loop returns on every element before [e], an element [e] that has an
    attribute named [hidden] and no [visibility] makes
    [extract_shapely_polygons], and so [extract_polygons], raise [KeyError]:
    the hidden test reads the [visibility] of every element that has an
    attribute named [hidden]. *)
Theorem half_hidden_element_raises_KeyError (doc : Document)
    (tolerance offset : float) (before after : list Element) (e : Element) :
  length (viewBox doc) = 4%nat →
  doc_elements doc = before ++ e :: after →
  Forall (λ e', ∃ g, gather tolerance e' = Ok g) before →
  is_Some (el_values e !! "hidden"%string) →
  el_values e !! "visibility"%string = None →
  extract_shapely_polygons doc tolerance = Raise KeyError ∧
  extract_polygons doc tolerance offset = Raise KeyError.
Proof.
  intros Hlen Hels Hbefore Hh Hv.
  apply get_sheet_dimensions_length in Hlen as (hw & Hdim).
  assert (extract_shapely_polygons doc tolerance = Raise KeyError) as Hex.
  { unfold extract_shapely_polygons. rewrite Hdim, Hels. simpl.
    rewrite (for_each_Raise_at (gather tolerance) before after e KeyError);
      [done | done |].
    by apply gather_Raise, is_hidden_Raise. }
  split; [done|]. unfold extract_polygons. by rewrite Hex.
Qed.

(** X6: the length assertions of ingest never fire:
    [extract_shapely_polygons] never raises [AssertionError],
    [extract_polygons] is what it is without its assertion, and the two lists
    it returns are of the same length, which is what [pack] asserts first. *)
Theorem ingest_length_assertions_hold (doc : Document) (tolerance offset : float) :
  extract_shapely_polygons doc tolerance ≠ Raise AssertionError ∧
  extract_polygons doc tolerance offset =
    ('(elements, shapely_polygons) ← extract_shapely_polygons doc tolerance;
     polygons ← for_each (to_pack_polygon offset) shapely_polygons;
     Ok (elements, polygons)) ∧
  ∀ els polys,
    extract_polygons doc tolerance offset = Ok (els, polys) →
    length els = length polys.
Proof.
  split; [|split].
  - intros [[[=] _] | [_ [(el & _ & Hel) | Hnum]]]%extract_shapely_polygons_Raise.
    + by apply is_hidden_Raise in Hel as ([=] & _).
    + destruct Hnum as [[=] | [[=] | [=]]].
  - unfold extract_polygons.
    destruct (extract_shapely_polygons doc tolerance) as [[els sps]|e] eqn:Hex;
      simpl; [|done].
    apply extract_shapely_polygons_length in Hex.
    apply Nat.eqb_eq in Hex. by rewrite Hex.
  - intros els polys (sps & Hex & Hpolys)%extract_polygons_Ok.
    apply extract_shapely_polygons_length in Hex.
    apply Forall2_length in Hpolys. congruence.
Qed.

(** X12: every polygon [extract_shapely_polygons] returns belongs to one
    retained path, in document order: its boundary is the sampled first
    subpath, buffered by [shapely] for the distance [1.5 * tolerance] and
    simplified with [tolerance]; its holes are the later subpaths that are
    closed, in order, each sampled, buffered for the distance
    [- (1.5 * tolerance)] and simplified; a later subpath that is not closed
    leaves no hole. *)
Theorem outlines_follow_the_subpaths (doc : Document) (tolerance : float)
    (els : list Element) (sps : list (Geometry * list Geometry)) :
  extract_shapely_polygons doc tolerance = Ok (els, sps) →
  Forall2
    (λ p sp,
       conservative_boundary tolerance p sp.1 ∧
       Forall2 (conservative_hole tolerance)
         (List.filter (λ q, is_closed q tolerance) (tail (path_as_subpaths p)))
         sp.2)
    (retained_paths tolerance doc) sps.
Proof.
  intros [_ Hout]%extract_shapely_polygons_retained.
  revert Hout. apply Forall2_impl. intros p [b hs] Hp. by apply outline_Ok in Hp.
Qed.

(** The loop of [add_ring] over the indices from [k]. *)
Lemma add_ring_range_iff (xs ys : list float) (n k : nat) (poly poly' : Polygon) :
  for_fold
    (λ poly i, xi ← py_index xs i; yi ← py_index ys i;
               Ok (addPoint poly (mkPoint xi yi)))
    (Z.of_nat <$> seq k n) poly = Ok poly' ↔
  (n = 0%nat ∨ (k + n ≤ length xs ∧ k + n ≤ length ys)%nat) ∧
  poly' = mkPolygon (points poly ++ take n (drop k (zip_with mkPoint xs ys))).
Proof.
  revert k poly. induction n as [|n IH]; intros k poly; simpl.
  - rewrite take_0, app_nil_r. destruct poly, poly'; simpl.
    split; [intros [= ->]; split; [by left | done] | by intros [_ ->]].
  - split.
    + intros Hf. ok_step Hf. ok_step Hok. ok_step Hok. ok_step Hok. subst a.
      apply py_index_nat in Hok0, Hok1.
      apply IH in Hf as [Hn ->]. simpl.
      pose proof (lookup_lt_Some _ _ _ Hok0). pose proof (lookup_lt_Some _ _ _ Hok1).
      split; [right; lia|]. f_equal. rewrite <- app_assoc. f_equal. simpl.
      assert (zip_with mkPoint xs ys !! k = Some (mkPoint a0 a1)) as Hz.
      { rewrite lookup_zip_with, Hok0. simpl. by rewrite Hok1. }
      by rewrite (drop_S _ _ _ Hz).
    + intros [[[=] | [Hx Hy]] ->].
      destruct (lookup_lt_is_Some_2 xs k) as [x Hxk]; [lia|].
      destruct (lookup_lt_is_Some_2 ys k) as [y Hyk]; [lia|].
      rewrite (proj2 (py_index_nat xs k x) Hxk). simpl.
      rewrite (proj2 (py_index_nat ys k y) Hyk). simpl.
      apply IH. split; [destruct n; [by left | right; lia]|].
      f_equal. simpl. rewrite <- app_assoc. f_equal. simpl.
      assert (zip_with mkPoint xs ys !! k = Some (mkPoint x y)) as Hz.
      { rewrite lookup_zip_with, Hxk. simpl. by rewrite Hyk. }
      by rewrite (drop_S _ _ _ Hz).
Qed.

(** X7: the ring loop of [extract_polygons] appends every coordinate pair
    but the last one, the closing point; it returns exactly when [y] has a
    coordinate for each of them, and an empty coordinate sequence gives no
    point and no error. *)
Theorem add_ring_drops_the_closing_point (xs ys : list float) (poly poly' : Polygon) :
  add_ring (xs, ys) poly = Ok poly' ↔
  (length xs - 1 ≤ length ys)%nat ∧
  poly' = mkPolygon (points poly ++ take (length xs - 1) (zip_with mkPoint xs ys)).
Proof.
  unfold add_ring, py_range.
  replace (Z.to_nat (Z.of_nat (length xs) - 1)) with (length xs - 1)%nat by lia.
  rewrite add_ring_range_iff, drop_0. simpl.
  split; intros [Hn ->]; (split; [lia | done]).
Qed.

End IngestErrors.

(** ** What [pack] writes and raises *)

Lemma py_index_Raise {A} (l : list A) (i : Z) (e : exn) :
  py_index l i = Raise e → e = IndexError.
Proof.
  unfold py_index. cbv zeta.
  destruct (_ <? 0); [by intros [= <-]|].
  destruct (l !! _); [discriminate | by intros [= <-]].
Qed.

Lemma py_index_is_Ok {A} (l : list A) (i : Z) :
  (∃ a, py_index l i = Ok a) ↔ - Z.of_nat (length l) ≤ i < Z.of_nat (length l).
Proof.
  unfold py_index. cbv zeta.
  destruct (Z.ltb_spec i 0) as [Hi|Hi].
  - destruct (Z.ltb_spec (Z.of_nat (length l) + i) 0) as [Hj|Hj].
    + split; [intros [a [=]] | lia].
    + destruct (l !! Z.to_nat (Z.of_nat (length l) + i)) as [a|] eqn:Hl.
      * split; [lia | by exists a].
      * apply lookup_ge_None in Hl. split; [intros [a [=]] | lia].
  - destruct (Z.ltb_spec i 0) as [Hj|Hj]; [lia|].
    destruct (l !! Z.to_nat i) as [a|] eqn:Hl.
    + apply lookup_lt_Some in Hl. split; [lia | by exists a].
    + apply lookup_ge_None in Hl. split; [intros [a [=]] | lia].
Qed.

Lemma for_fold_Raise {A S} (f : S → A → result S) (l : list A) (s : S) (e : exn) :
  for_fold f l s = Raise e → ∃ s' a, a ∈ l ∧ f s' a = Raise e.
Proof.
  revert s. induction l as [|a l IH]; intros s; simpl; [discriminate|].
  intros [Hf | (s1 & _ & Hf)]%bind_Raise.
  - exists s, a. split; [left | done].
  - destruct (IH _ Hf) as (s' & a' & Hin & Ha'). exists s', a'. split; [by right | done].
Qed.

Lemma for_fold_is_Ok {A S} (f : S → A → result S) (P : A → Prop) (l : list A) (s : S) :
  (∀ s a, (∃ s', f s a = Ok s') ↔ P a) →
  (∃ s', for_fold f l s = Ok s') ↔ Forall P l.
Proof.
  intros Hf. revert s. induction l as [|a l IH]; intros s; simpl.
  - split; [constructor | by exists s].
  - split.
    + intros [s' H]. ok_step H. constructor.
      * apply (Hf s). by eexists.
      * apply (IH a0). by eexists.
    + intros HF. inversion HF as [|? ? Ha Hl]; subst.
      apply (Hf s) in Ha as [s1 Hs1]. rewrite Hs1. simpl. by apply IH.
Qed.

Lemma Forall_concat_iff {A} (P : A → Prop) (ls : list (list A)) :
  Forall P (concat ls) ↔ Forall (Forall P) ls.
Proof.
  induction ls as [|l ls IH]; simpl.
  - split; constructor.
  - split.
    + intros [Hl Hls]%Forall_app. constructor; [done | by apply IH].
    + intros Hall. inversion Hall; subst. apply Forall_app. split; [done | by apply IH].
Qed.

Lemma zip_py_range_lookup {A} (l : list A) (k : nat) :
  zip (py_range (Z.of_nat (length l))) l !! k = (λ x, (Z.of_nat k, x)) <$> l !! k.
Proof.
  rewrite lookup_zip_with.
  destruct (l !! k) as [x|] eqn:Hl; simpl.
  - rewrite py_range_lookup by (apply lookup_lt_Some in Hl; lia). done.
  - by destruct (py_range _ !! k).
Qed.

Section OutputFacts.
Context `{svgelements : !SvgElements, shapely : !Shapely, native : !Native}.

Lemma place_shape_is_Ok elements polygons (acc : list PlacedShape * list Z)
    (pl : Placement) :
  (∃ acc', place_shape elements polygons acc pl = Ok acc') ↔
  placeable elements polygons pl.
Proof.
  unfold place_shape, placeable. destruct acc as [shapes sp]. split.
  - intros [acc' H]. ok_step H. ok_step H. ok_step H. split.
    + exists a. split; [done|]. intros Hnil. rewrite Hnil in Hok0. discriminate.
    + apply py_index_is_Ok. by eexists.
  - intros [(polygon & Hp & Hne) [el Hel]%py_index_is_Ok].
    rewrite Hp. simpl.
    destruct (points (boundary polygon)) as [|p0 ps]; [done|].
    change (py_index (p0 :: ps) 0) with (Ok p0). simpl.
    rewrite Hel. simpl. by eexists.
Qed.

Lemma place_shape_Raise elements polygons (acc : list PlacedShape * list Z)
    (pl : Placement) (e : exn) :
  place_shape elements polygons acc pl = Raise e → e = IndexError.
Proof.
  unfold place_shape. destruct acc as [shapes sp].
  intros [H | (polygon & _ & H)]%bind_Raise; [by eapply py_index_Raise|].
  apply bind_Raise in H as [H | (p0 & _ & H)]; [by eapply py_index_Raise|].
  apply bind_Raise in H as [H | (el & _ & [=])]. by eapply py_index_Raise.
Qed.

Lemma emit_sheet_is_Ok sheet_svgs elements polygons
    (acc : list (Z * OutputDoc) * list Z) (ip : Z * list Placement) :
  (∃ acc', emit_sheet sheet_svgs elements polygons acc ip = Ok acc') ↔
  (∃ doc, py_index sheet_svgs ip.1 = Ok doc) ∧
  Forall (placeable elements polygons) ip.2.
Proof.
  unfold emit_sheet. destruct acc as [outs sp], ip as [i pls]. simpl. split.
  - intros [acc' H]. ok_step H. ok_step H. split; [by eexists|].
    apply (for_fold_is_Ok _ _ _ ([], sp) (place_shape_is_Ok elements polygons)).
    by eexists.
  - intros [[doc Hdoc] HF]. rewrite Hdoc. simpl.
    apply (for_fold_is_Ok _ _ _ ([], sp) (place_shape_is_Ok elements polygons))
      in HF as [[shapes sp'] Hfold].
    rewrite Hfold. simpl. by eexists.
Qed.

(** [emit] returns exactly when there is a sheet document for every entry of
    the packing output and every placement can be written out. *)
Lemma emit_is_Ok sheet_svgs elements polygons (packing_output : list (list Placement)) :
  (∃ r, emit sheet_svgs elements polygons packing_output = Ok r) ↔
  (length packing_output ≤ length sheet_svgs)%nat ∧
  Forall (placeable elements polygons) (concat packing_output).
Proof.
  unfold emit.
  rewrite (for_fold_is_Ok _ _ _ _ (emit_sheet_is_Ok sheet_svgs elements polygons)).
  rewrite Forall_concat_iff, !Forall_lookup. split.
  - intros Hall. split.
    + destruct (decide (length packing_output ≤ length sheet_svgs)%nat) as [|Hgt];
        [done|].
      destruct (lookup_lt_is_Some_2 packing_output (length sheet_svgs)) as [pls Hpls];
        [lia|].
      destruct (Hall (length sheet_svgs) (Z.of_nat (length sheet_svgs), pls))
        as [Hdoc _].
      { by rewrite zip_py_range_lookup, Hpls. }
      apply py_index_is_Ok in Hdoc. simpl in Hdoc. lia.
    + intros k pls Hpls.
      destruct (Hall k (Z.of_nat k, pls)) as [_ HF]; [|done].
      by rewrite zip_py_range_lookup, Hpls.
  - intros [Hlen Hall] k [i pls] Hk.
    rewrite zip_py_range_lookup in Hk.
    destruct (packing_output !! k) as [pls'|] eqn:Hpls; [|discriminate].
    injection Hk as <- <-. simpl. split.
    + apply py_index_is_Ok. apply lookup_lt_Some in Hpls. lia.
    + by eapply Hall.
Qed.

Lemma emit_Raise sheet_svgs elements polygons (packing_output : list (list Placement))
    (e : exn) :
  emit sheet_svgs elements polygons packing_output = Raise e → e = IndexError.
Proof.
  unfold emit. intros (acc & [i pls] & _ & H)%for_fold_Raise.
  unfold emit_sheet in H. destruct acc as [outs sp].
  apply bind_Raise in H as [H | (doc & _ & H)]; [by eapply py_index_Raise|].
  apply bind_Raise in H as [H | ([shapes sp'] & _ & [=])].
  apply for_fold_Raise in H as (acc & pl & _ & H). by eapply place_shape_Raise.
Qed.

(** X9: the output loop of [pack] returns exactly when the packing output
    has no more entries than there are sheet documents and every placement
    names, by an index from [-n] to [n - 1], a polygon with a first boundary
    vertex and an element; where it does not return it raises [IndexError],
    and nothing else. *)
Theorem emit_returns_iff_indices_in_range sheet_svgs elements polygons
    (packing_output : list (list Placement)) :
  ((∃ r, emit sheet_svgs elements polygons packing_output = Ok r) ↔
   (length packing_output ≤ length sheet_svgs)%nat ∧
   Forall (placeable elements polygons) (concat packing_output)) ∧
  ∀ e, emit sheet_svgs elements polygons packing_output = Raise e → e = IndexError.
Proof. split; [apply emit_is_Ok | apply emit_Raise]. Qed.

(** X10: after the packing algorithm has run, [pack] raises [AssertionError]
    exactly when the output loop went through and the packing output names a
    polygon twice, or names more polygons than there are, or, in a call with
    [partial_solution = False], names some of the polygons but not all. *)
Theorem finish_raises_AssertionError_iff sheet_svgs elements polygons
    (partial_solution : bool) (packing_output : list (list Placement)) :
  finish sheet_svgs elements polygons partial_solution packing_output
    = Raise AssertionError ↔
  (∃ r, emit sheet_svgs elements polygons packing_output = Ok r) ∧
  (¬ NoDup (polygon_id <$> concat packing_output) ∨
   (length polygons < length (concat packing_output))%nat ∨
   (partial_solution = false ∧ concat packing_output ≠ [] ∧
    length (concat packing_output) ≠ length polygons)).
Proof.
  unfold finish.
  destruct (emit sheet_svgs elements polygons packing_output)
    as [[outs sp]|e] eqn:Hemit; simpl.
  - apply emit_Ok in Hemit as [-> _]. rewrite length_fmap.
    set (ids := polygon_id <$> concat packing_output).
    pose proof (size_list_to_set_NoDup ids) as Hnodup.
    assert (length ids = length (concat packing_output)) as Hids
      by (unfold ids; by rewrite length_fmap).
    assert (concat packing_output = [] ↔ length (concat packing_output) = 0%nat)
      as Hnil by (by rewrite length_zero_iff_nil).
    destruct (Z.eqb_spec (Z.of_nat (length (concat packing_output)))
                (Z.of_nat (size (list_to_set ids : gset Z)))) as [Hsize|Hsize]; simpl.
    + assert (NoDup ids) as Hnd by (apply Hnodup; lia).
      destruct (Z.leb_spec (Z.of_nat (length (concat packing_output)))
                  (Z.of_nat (length polygons))) as [Hle|Hgt]; simpl.
      * destruct partial_solution; simpl.
        { split; [discriminate|]. intros [_ [Hd | [Hlt | [[=] _]]]]; [done | lia]. }
        destruct (Z.eqb_spec (Z.of_nat (length (concat packing_output))) 0)
          as [Hz|Hnz]; simpl.
        { split; [discriminate|].
          intros [_ [Hd | [Hlt | (_ & Hne & _)]]]; [done | lia |].
          exfalso. apply Hne, Hnil. lia. }
        destruct (Z.eqb_spec (Z.of_nat (length (concat packing_output)))
                    (Z.of_nat (length polygons))) as [Hall|Hsome]; simpl.
        { split; [discriminate|].
          intros [_ [Hd | [Hlt | (_ & _ & Hne)]]]; [done | lia | lia]. }
        split; [|done]. intros _. split; [by eexists|]. right. right.
        split; [done|]. split; [|lia]. intros Hn. apply Hnil in Hn. lia.
      * split; [|done]. intros _. split; [by eexists|]. right. left. lia.
    + split; [|done]. intros _. split; [by eexists|]. left.
      intros Hnd. apply Hnodup in Hnd. lia.
  - split.
    + intros [= ->]. by apply emit_Raise in Hemit.
    + intros [[r [=]] _].
Qed.

Lemma shapes_count sheet_svgs elements polygons (l : list (Z * list Placement))
    (outs : list (Z * OutputDoc)) :
  Forall2 (output_of_sheet sheet_svgs elements polygons) l outs →
  length (concat l.*2) = length (outs ≫= λ out, out_shapes out.2).
Proof.
  induction 1 as [|[i pls] out l outs (_ & _ & Hshapes) _ IH]; [done|].
  rewrite fmap_cons, bind_cons. simpl. rewrite !length_app, IH.
  apply Forall2_length in Hshapes. simpl in Hshapes. lia.
Qed.

(** X11: where [pack] returns, document [k] of the solution carries the
    sheet index [k] and the view box of sheet document [k], and the number
    of placed parts it returns is the number of shapes in all documents of
    the solution. *)
Theorem pack_documents_follow_the_sheets sheet_svgs shapes offset tolerance
    partial_solution rotations persist custom_state (store store' : Store)
    (outputs : list (Z * OutputDoc)) (placed failed : Z) :
  pack sheet_svgs shapes offset tolerance partial_solution rotations persist
    custom_state store = (Ok (outputs, placed, failed), store') →
  (∀ (k : nat) out,
     outputs !! k = Some out →
     out.1 = Z.of_nat k ∧
     ∃ sheet, sheet_svgs !! k = Some sheet ∧ out_viewBox out.2 = viewBox sheet) ∧
  placed = Z.of_nat (length (outputs ≫= λ out, out_shapes out.2)).
Proof.
  intros (state' & Hon & _)%pack_Ok.
  apply pack_on_Ok in Hon as (els & polys & sheets & st1 & po & _ & _ & _ & _ & Hfin).
  apply finish_Ok in Hfin as (sp & Hemit & -> & _).
  apply emit_Ok in Hemit as [-> Houts]. split.
  - intros k out Hk.
    destruct (Forall2_lookup_r _ _ _ _ _ Houts Hk) as ([i pls] & Hip & Hi & Hsheet & _).
    rewrite zip_py_range_lookup in Hip.
    destruct (po !! k) as [pls'|]; [|discriminate]. injection Hip as <- <-.
    simpl in *. split; [done|].
    destruct Hsheet as (sheet & Hsheet & Hvb). exists sheet.
    split; [by apply py_index_nat | done].
  - rewrite length_fmap. f_equal.
    assert ((zip (py_range (Z.of_nat (length po))) po).*2 = po) as Hsnd.
    { apply snd_zip. rewrite py_range_length. lia. }
    rewrite <- Hsnd at 1. by eapply shapes_count.
Qed.

(** X13: when ingest of the shapes document raises, [pack] raises the same
    exception, and the shared [State] and every [State] of the caller are
    what they were: no sheet has been read and no native code has run. *)
Theorem pack_ingest_error_keeps_states sheet_svgs shapes offset tolerance
    partial_solution rotations persist custom_state (store : Store) (e : exn) :
  extract_polygons shapes tolerance offset = Raise e →
  (pack sheet_svgs shapes offset tolerance partial_solution rotations persist
     custom_state store).1 = Raise e ∧
  persistent_state
    (pack sheet_svgs shapes offset tolerance partial_solution rotations persist
       custom_state store).2 = persistent_state store ∧
  ∀ l, user_states
         (pack sheet_svgs shapes offset tolerance partial_solution rotations
            persist custom_state store).2 l = user_states store l.
Proof.
  intros Hex. unfold pack, pack_on. rewrite Hex. simpl.
  split; [done|].
  destruct (select_state persist custom_state) as [l'| |]; simpl;
    (split; [done|]); intros l; [|done|done].
  destruct (decide (l' = l)) as [->|Hne].
  - by rewrite fn_lookup_insert.
  - by rewrite fn_lookup_insert_ne.
Qed.

(** The attributes the loop of [flatten_shape] leaves on the shape. *)
Lemma retain_lookup (values : gmap string string) (attrs : list string)
    (shape : gmap string string) (k : string) :
  foldl
    (λ shape attr,
       match values !! attr with
       | Some v => <[attr := v]> shape
       | None => shape
       end)
    shape attrs !! k
  = if decide (k ∈ attrs)
    then match values !! k with Some v => Some v | None => shape !! k end
    else shape !! k.
Proof.
  revert shape. induction attrs as [|a attrs IH]; intros shape; simpl.
  - destruct (decide (k ∈ [])) as [Hin|_]; [by apply elem_of_nil in Hin | done].
  - rewrite IH. clear IH.
    destruct (decide (k = a)) as [Heq|Hne].
    + subst a. rewrite (decide_True (P := k ∈ k :: attrs)) by left.
      destruct (values !! k) as [v|] eqn:Hk.
      * destruct (decide (k ∈ attrs)); [done | by rewrite lookup_insert_eq].
      * by destruct (decide (k ∈ attrs)).
    + assert (match values !! a with
              | Some v => <[a := v]> shape
              | None => shape
              end !! k = shape !! k) as Hstep.
      { destruct (values !! a) as [v|]; [by rewrite lookup_insert_ne | done]. }
      rewrite Hstep.
      destruct (decide (k ∈ attrs)) as [Hin|Hnin].
      * rewrite (decide_True (P := k ∈ a :: attrs)) by (by right). done.
      * rewrite (decide_False (P := k ∈ a :: attrs)); [done|].
        by intros [?|?]%elem_of_cons.
Qed.

(** X8: the path [flatten_shape] makes carries the attribute [d], which is
    [element.d()], and of the attributes of the element exactly those named
    in [SVG_RETAIN_ATTRS], with their values; no other attribute, so never a
    [transform] of the element. *)
Theorem flatten_shape_keeps_retained_attributes (element : Element) (k : string) :
  flatten_shape element !! k =
    (if decide (k = "d"%string) then Some (el_d element)
     else if decide (k ∈ SVG_RETAIN_ATTRS) then el_values element !! k
     else None) ∧
  flatten_shape element !! "transform"%string = None.
Proof.
  assert ("d"%string ∉ SVG_RETAIN_ATTRS) as Hd.
  { assert (bool_decide ("d"%string ∈ SVG_RETAIN_ATTRS) = false) as Hb
      by (vm_compute; reflexivity).
    by apply bool_decide_eq_false in Hb. }
  assert (∀ k, flatten_shape element !! k =
    (if decide (k = "d"%string) then Some (el_d element)
     else if decide (k ∈ SVG_RETAIN_ATTRS) then el_values element !! k
     else None)) as Hall.
  { clear k. intros k. unfold flatten_shape. rewrite retain_lookup.
    destruct (decide (k = "d"%string)) as [->|Hne].
    - rewrite decide_False by done. by rewrite lookup_singleton_eq.
    - rewrite lookup_singleton_ne by done.
      destruct (decide (k ∈ SVG_RETAIN_ATTRS)); [|done].
      by destruct (el_values element !! k). }
  split; [apply Hall|].
  rewrite Hall. rewrite decide_False by done.
  rewrite decide_False; [done|].
  assert (bool_decide ("transform"%string ∈ SVG_RETAIN_ATTRS) = false) as Hb
    by (vm_compute; reflexivity).
  by apply bool_decide_eq_false in Hb.
Qed.

End OutputFacts.

(** ** The documents [pack] returns on *)

Section ReadableFacts.
Context `{svgelements : !SvgElements, shapely : !Shapely, native : !Native}.

Lemma extract_polygons_readable (doc : Document) (tolerance offset : float)
    (r : list Element * list PolygonWithHoles) :
  extract_polygons doc tolerance offset = Ok r → readable doc.
Proof.
  destruct r as [els polys].
  intros (sps & Hex & _)%extract_polygons_Ok.
  unfold extract_shapely_polygons in Hex.
  apply bind_Ok in Hex as ([h w] & Hdim & Hex).
  apply bind_Ok in Hex as (gathered & Hg & _).
  split.
  - apply get_sheet_dimensions_Ok in Hdim as (a & b & ->). done.
  - intros e Hin Hh.
    apply for_each_Ok in Hg.
    apply list_elem_of_lookup in Hin as (i & Hi).
    destruct (Forall2_lookup_l _ _ _ _ _ Hg Hi) as (g & _ & Hgather).
    destruct (el_values e !! "visibility"%string) as [v|] eqn:Hv; [by eexists|].
    assert (gather tolerance e = Raise KeyError) as Hraise.
    { apply gather_Raise, is_hidden_Raise. done. }
    congruence.
Qed.

Lemma build_sheets_readable (tolerance offset : float) (sheet_svgs : list Document)
    (state state' : State) (sheets : list Sheet) :
  build_sheets tolerance offset sheet_svgs state = (Ok sheets, state') →
  Forall readable sheet_svgs.
Proof.
  revert state sheets. induction sheet_svgs as [|doc rest IH]; intros state sheets;
    [constructor|].
  simpl. unfold build_sheet.
  destruct (extract_polygons doc tolerance offset) as [[els holes]|e] eqn:Hex;
    [|discriminate].
  destruct (get_sheet_dimensions doc) as [[h w]|e]; [|discriminate].
  destruct (sheet_add_holes _ _ _) as [sheet state1].
  destruct (build_sheets tolerance offset rest state1) as [[sheets'|e] state2] eqn:Hrest;
    [|discriminate].
  intros [= <- <-]. constructor.
  - by eapply extract_polygons_readable.
  - by eapply IH.
Qed.

(** X16: [pack] returns only on documents ingest can read: the view box of
    the shapes document and of every sheet document holds four numbers, and
    none of their elements has an attribute named [hidden] without having a
    [visibility]. *)
Theorem pack_returns_only_on_readable_documents sheet_svgs shapes offset
    tolerance partial_solution rotations persist custom_state
    (store store' : Store) (r : list (Z * OutputDoc) * Z * Z) :
  pack sheet_svgs shapes offset tolerance partial_solution rotations persist
    custom_state store = (Ok r, store') →
  readable shapes ∧ Forall readable sheet_svgs.
Proof.
  intros (state' & Hon & _)%pack_Ok.
  apply pack_on_Ok in Hon as (els & polys & sheets & st1 & po & Hex & _ & Hsheets & _).
  split.
  - by eapply extract_polygons_readable.
  - by eapply build_sheets_readable.
Qed.

End ReadableFacts.

(** ** The validator of the tests *)

Lemma py_all_true {A} (f : A → result bool) (l : list A) :
  py_all f l = Ok true ↔ Forall (λ a, f a = Ok true) l.
Proof.
  induction l as [|a l IH]; simpl.
  - split; [constructor | done].
  - split.
    + intros H. apply bind_Ok in H as (b & Hb & H).
      destruct b; [|discriminate]. constructor; [done | by apply IH].
    + intros HF. inversion HF as [|? ? Ha Hl]; subst.
      rewrite Ha. simpl. by apply IH.
Qed.

Lemma Forall_py_range (P : Z → Prop) (n : Z) :
  Forall P (py_range n) ↔ ∀ i : nat, (i < Z.to_nat n)%nat → P (Z.of_nat i).
Proof.
  split.
  - intros H i Hi. apply (Forall_lookup_1 _ _ i _ H). by apply py_range_lookup.
  - intros H. apply Forall_lookup_2. intros i z Hz.
    pose proof (lookup_lt_Some _ _ _ Hz) as Hi. rewrite py_range_length in Hi.
    rewrite py_range_lookup in Hz by done. injection Hz as <-. by apply H.
Qed.

Lemma py_range2_lookup (lo hi : Z) (k : nat) :
  (k < Z.to_nat (hi - lo))%nat → py_range2 lo hi !! k = Some (lo + Z.of_nat k).
Proof.
  intros Hk. unfold py_range2. rewrite list_lookup_fmap, lookup_seq_lt by done. done.
Qed.

Lemma Forall_py_range2 (P : Z → Prop) (lo hi : Z) :
  Forall P (py_range2 lo hi) ↔
  ∀ k : nat, (k < Z.to_nat (hi - lo))%nat → P (lo + Z.of_nat k).
Proof.
  split.
  - intros H k Hk. apply (Forall_lookup_1 _ _ k _ H). by apply py_range2_lookup.
  - intros H. apply Forall_lookup_2. intros k z Hz.
    pose proof (lookup_lt_Some _ _ _ Hz) as Hk.
    unfold py_range2 in Hk. rewrite length_fmap, length_seq in Hk.
    rewrite py_range2_lookup in Hz by done. injection Hz as <-. by apply H.
Qed.

Section ValidatorFacts.
Context `{svgelements : !SvgElements, shapely : !Shapely,
          predicates : !ShapelyPredicates}.

(** The hole loop of [make_polygon_with_holes] collects the components of
    the holes, in order. *)
Lemma all_holes_components (hs acc : list Geometry) :
  foldl
    (λ all_holes hole,
       if negb (is_empty hole) then
         match multi_geoms hole with
         | Some geoms =>
             foldl (λ all_holes minihole, all_holes ++ [minihole]) all_holes geoms
         | None => all_holes ++ [hole]
         end
       else all_holes)
    acc hs
  = acc ++ (hs ≫= components).
Proof.
  assert (∀ geoms acc' : list Geometry,
            foldl (λ all_holes minihole, all_holes ++ [minihole]) acc' geoms
            = acc' ++ geoms) as Hin.
  { induction geoms as [|g geoms IH]; intros acc'; simpl; [by rewrite app_nil_r|].
    by rewrite IH, <- app_assoc. }
  revert acc. induction hs as [|h hs IH]; intros acc; [simpl; by rewrite app_nil_r|].
  rewrite bind_cons. simpl. rewrite IH, app_assoc. f_equal.
  unfold components. destruct (is_empty h); simpl; [by rewrite app_nil_r|].
  destruct (multi_geoms h) as [geoms|]; [apply Hin | done].
Qed.

Lemma make_polygon_with_holes_Ok (b : Geometry) (hs : list Geometry) (g : Geometry) :
  make_polygon_with_holes b hs = Ok g ↔ composite (b, hs) g.
Proof.
  unfold make_polygon_with_holes, composite.
  rewrite all_holes_components, app_nil_l. simpl. split.
  - intros H. apply bind_Ok in H as (shell & Hshell & H).
    apply bind_Ok in H as (inner & Hinner & [= <-]).
    exists shell, inner. split; [done|]. split; [by apply for_each_Ok | done].
  - intros (shell & inner & Hshell & Hinner & ->).
    rewrite Hshell. simpl. apply for_each_Ok in Hinner. by rewrite Hinner.
Qed.

Lemma valid_entry_true (sheets : list Document) (tolerance : float)
    (entry : Z * Document) :
  valid_entry sheets tolerance entry = Ok true ↔
  entry_accepted sheets tolerance entry.
Proof.
  destruct entry as [sheet_id packed]. unfold valid_entry, entry_accepted. simpl.
  destruct (Z.leb_spec (Z.of_nat (length sheets)) sheet_id) as [Hge|Hlt].
  { split; [discriminate | intros [Hlt _]; lia]. }
  split.
  - intros H.
    apply bind_Ok in H as ([els placed] & Hex & H).
    apply bind_Ok in H as (parts & Hparts & H).
    apply bind_Ok in H as (sheet_svg & Hsheet & H).
    apply bind_Ok in H as ([h w] & Hdim & H).
    apply bind_Ok in H as (on_sheet & Hon & H).
    destruct on_sheet; simpl in H; [|discriminate].
    apply bind_Ok in H as (apart & Hapart & H).
    destruct apart; simpl in H; [|discriminate].
    apply bind_Ok in H as (sheet_svg' & Hsheet' & H).
    rewrite Hsheet in Hsheet'. injection Hsheet' as <-.
    apply bind_Ok in H as ([els' holes] & Hex' & H).
    split; [done|]. exists els, placed, parts, sheet_svg, h, w, els', holes.
    split; [done|]. split.
    { apply for_each_Ok in Hparts. revert Hparts. apply Forall2_impl.
      intros [b hs] part Hp. simpl in Hp.
      apply bind_Ok in Hp as (g & Hg & [= <-]).
      exists g. split; [by apply make_polygon_with_holes_Ok | done]. }
    split; [done|]. split; [done|]. split; [done|]. split; [|split].
    + intros part Hin. apply py_all_true in Hon.
      rewrite list.Forall_forall in Hon. specialize (Hon _ Hin).
      injection Hon as Hon. unfold sheet_rectangle.
      destruct (is_empty part); [by left|].
      destruct (contains _ part); [by right | discriminate].
    + intros i j a b Hij Ha Hb.
      pose proof (lookup_lt_Some _ _ _ Ha) as Hi.
      pose proof (lookup_lt_Some _ _ _ Hb) as Hj.
      apply py_all_true in Hapart.
      pose proof (proj1 (Forall_py_range _ _) Hapart i ltac:(lia)) as Hi'.
      simpl in Hi'. apply py_all_true in Hi'.
      pose proof (proj1 (Forall_py_range2 _ _ _) Hi' (j - i - 1)%nat ltac:(lia))
        as Hapart'.
      simpl in Hapart'. clear Hapart Hi'. rename Hapart' into Hapart.
      replace (Z.of_nat i + 1 + Z.of_nat (j - i - 1)) with (Z.of_nat j) in Hapart
        by lia.
      rewrite (proj2 (py_index_nat parts i a) Ha) in Hapart. simpl in Hapart.
      rewrite (proj2 (py_index_nat parts j b) Hb) in Hapart. simpl in Hapart.
      injection Hapart as Hapart. by destruct (intersects a b).
    + intros part hole Hpart Hhole.
      apply py_all_true in H. rewrite list.Forall_forall in H. specialize (H _ Hpart).
      apply py_all_true in H. rewrite list.Forall_forall in H.
      apply list_elem_of_fmap in Hhole as ([hole' hs] & -> & Hin).
      specialize (H _ Hin). simpl in *. injection H as H.
      by destruct (intersects part hole').
  - intros [_ (els & placed & parts & sheet_svg & h & w & els' & holes & Hex &
               Hparts & Hsheet & Hdim & Hex' & Hon & Hapart & Hholes)].
    rewrite Hex. simpl.
    match goal with
    | |- context [for_each ?f placed] => assert (for_each f placed = Ok parts) as ->
    end.
    { apply for_each_Ok. revert Hparts. apply Forall2_impl.
      intros [b hs] part (g & Hg & ->). apply make_polygon_with_holes_Ok in Hg.
      simpl. by rewrite Hg. }
    simpl. rewrite Hsheet. simpl. rewrite Hdim. simpl.
    match goal with
    | |- context [py_all ?f parts] => assert (py_all f parts = Ok true) as ->
    end.
    { apply py_all_true, list.Forall_forall. intros part Hin.
      destruct (Hon _ Hin) as [He | Hc].
      - by rewrite He.
      - unfold sheet_rectangle in Hc. rewrite Hc. by destruct (is_empty part). }
    simpl.
    match goal with
    | |- context [py_all ?f (py_range ?n)] =>
        assert (py_all f (py_range n) = Ok true) as ->
    end.
    { apply py_all_true, Forall_py_range. intros i Hi.
      apply py_all_true, Forall_py_range2. intros k Hk.
      rewrite Nat2Z.id in Hi.
      destruct (lookup_lt_is_Some_2 parts i) as [a Ha]; [lia|].
      destruct (lookup_lt_is_Some_2 parts (i + 1 + k)) as [b Hb]; [lia|].
      rewrite (proj2 (py_index_nat parts i a) Ha). simpl.
      replace (Z.of_nat i + 1 + Z.of_nat k) with (Z.of_nat (i + 1 + k)) by lia.
      rewrite (proj2 (py_index_nat parts _ b) Hb). simpl.
      rewrite (Hapart i (i + 1 + k)%nat a b); [done | lia | done | done]. }
    simpl. rewrite Hex'. simpl.
    apply py_all_true, list.Forall_forall. intros part Hpart.
    apply py_all_true, list.Forall_forall. intros [hole hs] Hin. simpl.
    rewrite (Hholes part hole); [done | done |].
    apply list_elem_of_fmap. by exists (hole, hs).
Qed.

(** X14: [make_polygon_with_holes] returns the polygon whose shell is the
    exterior of the boundary and whose holes are the exteriors of the holes
    that are not empty, the members of a [MultiPolygon] hole each counting as
    a hole, in order; it returns whenever all these exteriors exist. *)
Theorem make_polygon_with_holes_takes_the_components (b : Geometry)
    (hs : list Geometry) (g : Geometry) :
  make_polygon_with_holes b hs = Ok g ↔
  ∃ shell inner,
    exterior_coords b = Ok shell ∧
    Forall2 (λ h c, exterior_coords h = Ok c) (hs ≫= components) inner ∧
    g = shapely_Polygon_holes shell inner.
Proof. apply make_polygon_with_holes_Ok. Qed.

(** X15: [validSolution] returns [True] exactly when every entry of the
    solution passes: its sheet id is below the number of sheets, its parts,
    read with half the tolerance and eroded by the tolerance, are empty or
    inside the sheet rectangle, no two of them intersect, and none of them
    intersects the boundary of a shape of its sheet; an entry whose sheet id
    is not below the number of sheets makes it return [False] before the
    entry is read. *)
Theorem validSolution_accepts_iff (solution : list (Z * Document))
    (sheets : list Document) (shapes : Document) (tolerance : float) :
  (validSolution solution sheets shapes tolerance = Ok true ↔
   Forall (entry_accepted sheets tolerance) solution) ∧
  ∀ entry rest,
    Z.of_nat (length sheets) ≤ entry.1 →
    validSolution (entry :: rest) sheets shapes tolerance = Ok false.
Proof.
  split.
  - unfold validSolution. split.
    + intros H%py_all_true. revert H. apply Forall_impl.
      intros entry. apply valid_entry_true.
    + intros H. apply py_all_true. revert H. apply Forall_impl.
      intros entry. apply valid_entry_true.
  - intros [sheet_id packed] rest Hge. unfold validSolution. simpl in *.
    destruct (Z.leb_spec (Z.of_nat (length sheets)) sheet_id) as [_|Hlt]; [done | lia].
Qed.

End ValidatorFacts.

(** ** The model on concrete documents *)

Section Runs.
Import Sample SampleChecks.

(** What the sample documents give. *)
Example mixed_retains_two : length mixed_ingest.1 = 2%nat.
Proof. reflexivity. Qed.

Example ring_keeps_its_hole_as_a_part :
  (λ p, length (holes p)) <$> ring_polygons.2 = [1%nat].
Proof. reflexivity. Qed.

Example ring_loses_its_hole_as_a_sheet_shape :
  holes <$> obstacles ring_sheet = [[]].
Proof. reflexivity. Qed.

Example both_squares_placed : (both_placed.1.2, both_placed.2) = (2, 0).
Proof. reflexivity. Qed.

Example one_square_does_not_fit : (one_placed.1.2, one_placed.2) = (1, 1).
Proof. reflexivity. Qed.

Example equal_areas_keep_their_order :
  (sort_parts
     (imap (λ i B, (Z.of_nat i, B))
        (ok_or [] (snd <$> extract_polygons
                     (mkDocument [0; 0; 9; 9]%float
                        [shape_element plain (rect 0 0 2 2);
                         shape_element plain (rect 0 0 5 5);
                         shape_element plain (rect 1 1 2 2)]) 1 1)))).*1
  = [1; 0; 2].
Proof. reflexivity. Qed.

(** The fingerprint of the sample back end is canonical. *)
Lemma sample_canonical : canonical_fingerprint (backend := Sample.backend).
Proof. intros A A' B B' r HA HB. simpl in *. by rewrite HA, HB. Qed.

Lemma sample_nonempty_closed (values : gmap string string) (x y w h : float) :
  (Sample.euclid (x, y) (x, y) <? 1)%float = true →
  nonempty_closed 1
    (Sample.shape_element values (Sample.rect x y w h)).
Proof.
  intros Hc. exists (Sample.rect x y w h).
  split; [done|]. split; [done|]. exact Hc.
Qed.

(** C10 on the mixed document: the square that is marked as hidden is left
    out, the square whose visibility alone is hidden is ingested. *)
Lemma hidden_needs_attribute_named_hidden_witness :
  extract_shapely_polygons Sample.mixed 1
    = Ok (Sample.mixed_ingest.1, Sample.mixed_ingest.2) ∧
  ¬ (Sample.hidden_square ∈ Sample.mixed_ingest.1) ∧
  Sample.invisible_square ∈ Sample.mixed_ingest.1.
Proof.
  assert (extract_shapely_polygons Sample.mixed 1
          = Ok (Sample.mixed_ingest.1, Sample.mixed_ingest.2)) as Hex.
  { reflexivity. }
  split; [exact Hex|]. split.
  - refine (proj1 (proj2 (hidden_needs_attribute_named_hidden Sample.mixed 1%float
                            _ _ Sample.hidden_square Hex _)) _).
    + do 3 right. left.
    + split; [by eexists | reflexivity].
  - refine (proj2 (proj2 (proj2 (hidden_needs_attribute_named_hidden Sample.mixed
                                   1%float _ _ Sample.invisible_square Hex _)))
              _ _ _).
    + do 4 right. left.
    + reflexivity.
    + reflexivity.
    + apply sample_nonempty_closed. reflexivity.
Defined.

(** C8 fails on the mixed document: the hidden square is a non-empty closed
    path of the document, and it is not retained. *)
Lemma hidden_closed_path_is_dropped :
  ¬ retained_iff_closed Sample.mixed 1.
Proof.
  intros Hclaim.
  assert (extract_shapely_polygons Sample.mixed 1
          = Ok (Sample.mixed_ingest.1, Sample.mixed_ingest.2)) as Hex.
  { reflexivity. }
  assert (Sample.hidden_square ∈ doc_elements Sample.mixed) as Hin.
  { do 3 right. left. }
  assert (forallb (λ e, bool_decide (el_values e !! "hidden"%string = None))
            Sample.mixed_ingest.1 = true) as Hnone.
  { reflexivity. }
  destruct (Hclaim _ _ _ Hex Hin) as [_ Hback].
  assert (Sample.hidden_square ∈ Sample.mixed_ingest.1) as Hret.
  { apply Hback, sample_nonempty_closed. reflexivity. }
  apply list_elem_of_In in Hret.
  apply (proj1 (List.forallb_forall _ _) Hnone) in Hret.
  apply bool_decide_eq_true in Hret. discriminate.
Qed.

(** C8, as the code has it, on the mixed document. *)
Lemma retained_iff_visible_nonempty_closed_witness :
  Sample.mixed_ingest.1 = List.filter (retained 1) (doc_elements Sample.mixed) ∧
  length Sample.mixed_ingest.2 = length Sample.mixed_ingest.1 ∧
  ∀ e, e ∈ doc_elements Sample.mixed →
       (e ∈ Sample.mixed_ingest.1 ↔ is_hidden e = Ok false ∧ nonempty_closed 1 e).
Proof.
  apply (retained_iff_visible_nonempty_closed Sample.mixed 1%float).
  reflexivity.
Defined.

(** C4 on the ring: a 10 by 10 square with an 8 by 8 hole. *)
Lemma offset_dilates_boundary_only_witness :
  ∃ sps,
    extract_shapely_polygons Sample.sheet_with_ring 1
      = Ok (Sample.ring_polygons.1, sps) ∧
    Forall2
      (λ sp poly,
         is_ring_of (buffer sp.1 1 2 2 5%float) (boundary poly) ∧
         Forall2 is_ring_of (sp.2 ≫= components) (holes poly))
      sps Sample.ring_polygons.2 ∧
    ∀ offset' els' polys',
      extract_polygons Sample.sheet_with_ring 1 offset' = Ok (els', polys') →
      holes <$> polys' = holes <$> Sample.ring_polygons.2.
Proof.
  apply (offset_dilates_boundary_only Sample.sheet_with_ring 1%float 1%float).
  reflexivity.
Defined.



(** C7 on the blank 10 by 10 sheet: one square placed, one failed. *)
Lemma pack_accounting_witness :
  one_placed.1.2 + one_placed.2 =
    Z.of_nat (length (List.filter (retained 1) (doc_elements two_squares))) ∧
  0 ≤ one_placed.1.2 ∧ 0 ≤ one_placed.2 ∧
  ∃ elements polygons sheets state state' packing_output,
    extract_polygons two_squares 1 1 = Ok (elements, polygons) ∧
    pack_decreasing sheets polygons state true 1 = (packing_output, state') ∧
    Forall2 (output_of_sheet [blank_sheet 10 10] elements polygons)
      (zip (py_range (Z.of_nat (length packing_output))) packing_output)
      one_placed.1.1 ∧
    one_placed.1.2 = Z.of_nat (length (concat packing_output)) ∧
    NoDup (polygon_id <$> concat packing_output).
Proof.
  apply (pack_accounting [blank_sheet 10 10] two_squares 1%float 1%float true 1
           false None store0 store0).
  reflexivity.
Defined.

(** C6 fails with [persist = False]: the custom state 1 is left empty, where
    a call working on it would have cached two NFPs in it. *)
Lemma custom_state_ignored_without_persist :
  ¬ custom_state_is_used [sheet_with_hole] two_squares 1 1 false 1 false 1%nat store0.
Proof.
  unfold custom_state_is_used. intros Heq.
  apply (f_equal (λ r, size (user_states r.2 1%nat))) in Heq.
  vm_compute in Heq. discriminate.
Qed.

(** The state that served one call holds two NFPs, and a second call on the
    same input finds every NFP it asks for: the cache does not grow. *)
Example served_state_holds_two_entries : size (user_states store1 1%nat) = 2%nat.
Proof. vm_compute. reflexivity. Qed.

Example second_call_only_hits :
  size (pack_on [sheet_with_hole] two_squares 1 1 false 1 (user_states store1 1%nat)).2
  = 2%nat.
Proof. vm_compute. reflexivity. Qed.

Example second_call_places_both :
  (pack [sheet_with_hole] two_squares 1 1 false 1 true (Some 1%nat) store1).1
  = Ok both_placed.
Proof. reflexivity. Qed.

(** Without a canonical fingerprint the equivalence fails: on the blind
    back end a state that served a call on the wide sheet makes the next
    call put the square where the 8 by 8 square would have left room. *)
Example blind_fingerprint_breaks_equivalence :
  ∃ st, @warmed svg shapely blind st ∧
    (@pack_on svg shapely blind_native [sheet_with_hole] small_square 1 1 false 1
       st).1
    ≠ (@pack_on svg shapely blind_native [sheet_with_hole] small_square 1 1 false 1
         (@empty_cache blind)).1.
Proof.
  exists blind_served. split.
  - exact (@warmed_pack svg shapely blind [wide_sheet] small_square 1%float 1%float
             false 1 _ (@warmed_fresh svg shapely blind)).
  - intros Heq. apply (f_equal first_tx) in Heq.
    assert ((first_tx
               (@pack_on svg shapely blind_native [sheet_with_hole] small_square
                  1 1 false 1 blind_served).1
             =? first_tx
                  (@pack_on svg shapely blind_native [sheet_with_hole] small_square
                     1 1 false 1 (@empty_cache blind)).1)%float = false) as Hne.
    { vm_compute. reflexivity. }
    rewrite Heq in Hne. vm_compute in Hne. discriminate.
Qed.


End Runs.

(** ** The further properties on concrete documents *)

Section FurtherRuns.
Import Sample SampleChecks.

(** The tests of [ValidatorTest] that do not nest a part in a hole. *)
Example test_valid_solution :
  validSolution [(0, apart_shapes)] [corner_sheet] apart_shapes tenth = Ok true.
Proof. vm_compute. reflexivity. Qed.

Example test_overlapped_parts :
  validSolution [(0, overlapped_shapes)] [corner_sheet] overlapped_shapes tenth
  = Ok false.
Proof. vm_compute. reflexivity. Qed.

Example test_off_sheet :
  validSolution [(0, off_sheet_shapes)] [corner_sheet] off_sheet_shapes tenth
  = Ok false.
Proof. vm_compute. reflexivity. Qed.

Example test_overlapped_hole :
  validSolution [(0, on_hole_shapes)] [corner_sheet] on_hole_shapes tenth = Ok false.
Proof. vm_compute. reflexivity. Qed.

Example test_valid_multisheet :
  validSolution [(0, second_sheet); (1, corner_sheet)] [corner_sheet; second_sheet]
    apart_shapes tenth = Ok true.
Proof. vm_compute. reflexivity. Qed.

Example test_invalid_multisheet :
  validSolution [(0, corner_sheet); (1, second_sheet)] [corner_sheet; second_sheet]
    apart_shapes tenth = Ok false.
Proof. reflexivity. Qed.

(** A sheet id that counts from the end is accepted; one past the end is
    rejected before the entry is read. *)
Example sheet_id_from_the_end :
  validSolution [(-1, apart_shapes)] [corner_sheet] apart_shapes tenth = Ok true.
Proof. reflexivity. Qed.

Example sheet_id_past_the_end :
  validSolution [(1, no_view_box)] [corner_sheet] apart_shapes tenth = Ok false.
Proof. reflexivity. Qed.

(** What the sanity checks of [pack] make of a packing output that places
    a polygon twice, and of one that names a polygon that is not there. *)
Example placed_twice_is_refused :
  finish [sheet_with_hole] squares.1 squares.2 true [[at_origin 0; at_origin 0]]
  = Raise AssertionError.
Proof. reflexivity. Qed.

Example unknown_polygon_is_refused :
  finish [sheet_with_hole] squares.1 squares.2 true [[at_origin 2]]
  = Raise IndexError.
Proof. reflexivity. Qed.

(** X2 on a 5 by 5 square: a zero spacing, a spacing so small that the
    quotient is infinite, and a spacing that is not a number. *)
Lemma discretize_path_raises_witness :
  discretize_path (svgelements := svg) (rect 0 0 5 5) 0 = Raise ZeroDivisionError ∧
  discretize_path (svgelements := svg) (rect 0 0 5 5) 0x1p-1074 = Raise OverflowError ∧
  discretize_path (svgelements := svg) (rect 0 0 5 5) nan = Raise ValueError.
Proof.
  split; [|split].
  - apply (discretize_path_raises (svgelements := svg) (rect 0 0 5 5) 0%float
             ZeroDivisionError).
    reflexivity.
  - apply (discretize_path_raises (svgelements := svg) (rect 0 0 5 5)
             0x1p-1074%float OverflowError).
    split; [reflexivity | by exists false].
  - apply (discretize_path_raises (svgelements := svg) (rect 0 0 5 5) nan
             ValueError).
    split; reflexivity.
Defined.

(** X5 on the document whose second element has an attribute named [hidden]
    and no [visibility]. *)
Lemma half_hidden_element_raises_KeyError_witness :
  extract_shapely_polygons unreadable 1 = Raise KeyError ∧
  extract_polygons unreadable 1 1 = Raise KeyError.
Proof.
  apply (half_hidden_element_raises_KeyError unreadable 1%float 1%float
           [shape_element plain (rect 0 0 5 5)] []
           (shape_element half_hidden (rect 0 0 3 3))).
  - reflexivity.
  - reflexivity.
  - constructor; [|constructor]. eexists. reflexivity.
  - eexists. reflexivity.
  - reflexivity.
Defined.

(** X1 on a 5 by 5 square sampled every unit. *)
Lemma discretize_path_at_least_three_points_witness :
  ∃ (c : Z) (pts : list (float * float)),
    py_ceil (@path_length svg (rect 0 0 5 5) / 1) = Ok c ∧
    square_samples = to_shapely_polygon pts ∧
    Z.of_nat (length pts) = Z.max 3 c ∧
    (3 ≤ length pts)%nat ∧
    ∀ i : nat, (i < length pts)%nat →
      pts !! i =
        Some (@path_point svg (rect 0 0 5 5)
                (py_float (Z.of_nat i) * (py_float 1 / py_float (Z.max 3 c)))%float).
Proof.
  apply (discretize_path_at_least_three_points (svgelements := svg)
           (rect 0 0 5 5) 1%float).
  reflexivity.
Defined.

(** X4 on a document whose view box holds three numbers. *)
Lemma malformed_view_box_raises_ValueError_witness :
  get_sheet_dimensions no_view_box = Raise ValueError ∧
  extract_shapely_polygons no_view_box 1 = Raise ValueError ∧
  extract_polygons no_view_box 1 1 = Raise ValueError.
Proof.
  apply (malformed_view_box_raises_ValueError no_view_box 1%float 1%float).
  discriminate.
Defined.

(** X11 on the sheet with the hole. *)
Lemma pack_documents_follow_the_sheets_witness :
  (∀ (k : nat) out,
     both_placed.1.1 !! k = Some out →
     out.1 = Z.of_nat k ∧
     ∃ sheet, [sheet_with_hole] !! k = Some sheet ∧
              out_viewBox out.2 = viewBox sheet) ∧
  both_placed.1.2 = Z.of_nat (length (both_placed.1.1 ≫= λ out, out_shapes out.2)).
Proof.
  apply (pack_documents_follow_the_sheets [sheet_with_hole] two_squares
           1%float 1%float false 1 false None store0 store0
           both_placed.1.1 both_placed.1.2 both_placed.2).
  reflexivity.
Defined.

(** X16 on the sheet with the hole. *)
Lemma pack_returns_only_on_readable_documents_witness :
  readable two_squares ∧ Forall readable [sheet_with_hole].
Proof.
  apply (pack_returns_only_on_readable_documents [sheet_with_hole] two_squares
           1%float 1%float false 1 false None store0 store0 both_placed).
  reflexivity.
Defined.

(** X12 on the ring: the inner square is its one hole. *)
Lemma outlines_follow_the_subpaths_witness :
  Forall2
    (λ p sp,
       conservative_boundary 1 p sp.1 ∧
       Forall2 (conservative_hole 1)
         (List.filter (λ q, is_closed q 1) (tail (path_as_subpaths p)))
         sp.2)
    (retained_paths 1 sheet_with_ring) ring_outlines.2.
Proof.
  apply (outlines_follow_the_subpaths sheet_with_ring 1%float ring_outlines.1).
  reflexivity.
Defined.

(** X13 on the document with the half-hidden element: [KeyError], and the
    caller's state 1 is still empty. *)
Lemma pack_ingest_error_keeps_states_witness :
  (pack [corner_sheet] unreadable 1 1 false 1 true (Some 1%nat) store0).1
    = Raise KeyError ∧
  persistent_state
    (pack [corner_sheet] unreadable 1 1 false 1 true (Some 1%nat) store0).2
    = persistent_state store0 ∧
  ∀ l, user_states
         (pack [corner_sheet] unreadable 1 1 false 1 true (Some 1%nat) store0).2 l
       = user_states store0 l.
Proof.
  apply (pack_ingest_error_keeps_states [corner_sheet] unreadable 1%float 1%float
           false 1 true (Some 1%nat) store0 KeyError).
  reflexivity.
Defined.

End FurtherRuns.
